(** * Icecat fetch helper (app.py): a shallow embedding and its properties

    The program is a single Streamlit script.  One execution of the script
    (one "pass") reads the widget values, may call the Icecat endpoint and
    asset URLs through [requests.get], and issues a sequence of Streamlit
    calls.  The embedding keeps that shape:

    - decoded JSON is the type [json], handled with Python's dynamic
      operations ([d[k]], [d.get(k, default)], truthiness, [x or y],
      slicing, iteration), each of which may raise;
    - a pass is a computation in the monad [M]: it threads the list of
      Streamlit / network calls issued so far, the number of
      [requests.get] calls and the session flag, and ends normally, by
      [st.stop()], or by an uncaught Python exception;
    - the outside world (what the widgets return, what the network
      answers) is a record [world], a variable of the sections below.

    Streamlit, pandas and zipfile are seen through the calls the script
    makes to them: a call is recorded with its arguments and returns; the
    checks those libraries run on their own (duplicate widget ids, values
    a data frame cannot index, archive member names) are outside the
    model.  [st.columns(4)] is recorded as four equal columns, and
    [use_container_width=True] as an image without a width. *)

From Stdlib Require Import String Ascii List ZArith Bool Arith Lia.
From Stdlib Require Import DecimalString DecimalNat Strings.Byte.
Import ListNotations.
Open Scope string_scope.
Set Warnings "-register-all".

(* ------------------------------------------------------------------ *)
(** * Python values and exceptions                                      *)
(* ------------------------------------------------------------------ *)

(** What [resp.json()] returns.  A JSON object is a Python [dict]; it is
    kept as an association list in insertion order, looked up by its first
    binding.  Non-integer numbers are not represented: no operation of the
    script distinguishes them from integers other than by truthiness. *)
Inductive json : Type :=
| JNull
| JBool (b : bool)
| JNum (z : Z)
| JStr (s : string)
| JArr (items : list json)
| JObj (fields : list (string * json)).

(** The exceptions that the script and the libraries it calls can raise. *)
Inductive pyexc : Type :=
| KeyError (key : string)
| TypeError
| AttributeError
| AssertionError (arg : json)
| RequestException          (* requests.get: DNS, connection, timeout, bad URL *)
| HTTPError (status : Z)    (* resp.raise_for_status() *)
| JSONDecodeError.          (* resp.json() *)

Inductive result (A : Type) : Type :=
| Ok (a : A)
| Err (e : pyexc).
Arguments Ok {A} a.
Arguments Err {A} e.

Definition rbind {A B} (r : result A) (f : A -> result B) : result B :=
  match r with
  | Ok a => f a
  | Err e => Err e
  end.

Declare Scope py_scope.
Delimit Scope py_scope with py.
Notation "x <~ r ; k" := (rbind r (fun x => k))
  (at level 61, r at next level, right associativity) : py_scope.

Module Py.

(** [bool(x)] *)
Definition truthy (j : json) : bool :=
  match j with
  | JNull => false
  | JBool b => b
  | JNum z => negb (Z.eqb z 0)
  | JStr s => negb (String.eqb s "")
  | JArr l => match l with [] => false | _ => true end
  | JObj l => match l with [] => false | _ => true end
  end.

Fixpoint lookup (k : string) (d : list (string * json)) : option json :=
  match d with
  | [] => None
  | (k', v) :: rest => if String.eqb k k' then Some v else lookup k rest
  end.

(** [x[k]] for a string key [k]: only a dict accepts it. *)
Definition getitem (x : json) (k : string) : result json :=
  match x with
  | JObj d => match lookup k d with
              | Some v => Ok v
              | None => Err (KeyError k)
              end
  | _ => Err TypeError
  end.

(** [x.get(k, default)]: only a dict has the method. *)
Definition get (x : json) (k : string) (default : json) : result json :=
  match x with
  | JObj d => match lookup k d with
              | Some v => Ok v
              | None => Ok default
              end
  | _ => Err AttributeError
  end.

(** [x[k1][k2]...] *)
Fixpoint path (x : json) (ks : list string) : result json :=
  match ks with
  | [] => Ok x
  | k :: ks' => rbind (getitem x k) (fun y => path y ks')
  end.

Fixpoint chars (s : string) : list json :=
  match s with
  | EmptyString => []
  | String c rest => JStr (String c EmptyString) :: chars rest
  end.

(** [iter(x)]: the items of a list, the keys of a dict, the characters
    of a string (taken bytewise here). *)
Definition iter (x : json) : result (list json) :=
  match x with
  | JArr l => Ok l
  | JObj d => Ok (map (fun kv => JStr (fst kv)) d)
  | JStr s => Ok (chars s)
  | _ => Err TypeError
  end.

(** [x[:n]]: lists and strings can be sliced ([TypeError] stands for the
    exception a dict raises, whose class depends on the interpreter). *)
Definition slice_to (x : json) (n : nat) : result json :=
  match x with
  | JArr l => Ok (JArr (firstn n l))
  | JStr s => Ok (JStr (substring 0 n s))
  | _ => Err TypeError
  end.

Definition str_of_nat (n : nat) : string :=
  NilEmpty.string_of_uint (Nat.to_uint n).

Definition is_lower (c : ascii) : bool :=
  let n := nat_of_ascii c in (97 <=? n)%nat && (n <=? 122)%nat.

Definition upper_ascii (c : ascii) : ascii :=
  if is_lower c then ascii_of_nat (nat_of_ascii c - 32) else c.

(** [s.upper()] on ASCII text *)
Fixpoint upper (s : string) : string :=
  match s with
  | EmptyString => EmptyString
  | String c rest => String (upper_ascii c) (upper rest)
  end.

Fixpoint split_on (sep : ascii) (s : string) : list string :=
  match s with
  | EmptyString => [EmptyString]
  | String c rest =>
      if Ascii.eqb c sep then EmptyString :: split_on sep rest
      else match split_on sep rest with
           | [] => [String c EmptyString]
           | w :: ws => String c w :: ws
           end
  end.

Definition is_part (x : string) : bool :=
  negb (String.eqb x "") && negb (String.eqb x ".").

(** [pathlib.Path(s).name] on a POSIX host: the last component of [s]
    split at slashes, empty and ["."] components dropped; [""] when no
    component is left. *)
Definition Path_name (s : string) : string :=
  last (filter is_part (split_on "/" s)) "".

End Py.

(* ------------------------------------------------------------------ *)
(** * Configuration (constants of app.py)                               *)
(* ------------------------------------------------------------------ *)

Inductive Language : Type := DE | NL | EN | FR.

Definition ICECAT_USER : string := "openIcecat-live".
Definition ICECAT_API : string := "https://live.icecat.biz/api".
Definition LANGUAGES (l : Language) : string :=
  match l with
  | DE => "de"
  | NL => "nl"
  | EN => "en"
  | FR => "fr"
  end.
Definition LANGUAGES_keys : list string := ["DE"; "NL"; "EN"; "FR"].
Definition TIMEOUT : Z := 20.
Definition MAX_GALLERY : nat := 20.

(* ------------------------------------------------------------------ *)
(** * What a pass does: events, state, and the monad                    *)
(* ------------------------------------------------------------------ *)

Definition bytes := list byte.

(** An HTTP response as the script uses it: the status code looked at by
    [raise_for_status], the raw [content], and what [json()] gives
    ([None]: the body does not decode). *)
Record response : Type := mkResponse {
  status_code : Z;
  content : bytes;
  body_json : option json
}.

Definition zip_entry : Type := (string * bytes)%type.

Inductive download : Type :=
| Raw (b : bytes)
| ZipBuf (entries : list zip_entry).

Definition row : Type := (json * json * json)%type.

(** One constructor per call the script issues, with the arguments it
    passes. *)
Inductive event : Type :=
| EvPageConfig (page_title layout : string)
| EvTitle (s : string)
| EvColumns (spec : list Z)
| EvSelectbox (label : string) (options : list string) (index : nat)
| EvTextInput (label : string) (value : json) (disabled : bool)
| EvTextArea (label : string) (value : json) (height : Z)
| EvButton (label : string) (key : option string)
| EvWarning (s : string)
| EvError (s : string)
| EvExpander (label : string) (expanded : bool)
| EvDataframe (rows : list row) (height : Z)
| EvImage (src : json) (caption : option string) (width : option Z)
| EvMarkdown (s : string)
| EvColumn (i : nat)
| EvDownloadButton (label : string) (data : download) (file_name : string)
                   (mime : option string) (key : option string)
| EvVideo (src : json)
| EvCaption (s : string)
| ReqGet (url : string) (timeout : option Z).

Record state : Type := mkState {
  log : list event;        (* calls issued so far, oldest first *)
  requests : nat;          (* number of requests.get calls so far *)
  do_fetch : bool          (* st.session_state["do_fetch"] *)
}.

Definition init (flag : bool) : state :=
  {| log := []; requests := 0; do_fetch := flag |}.

Inductive outcome (A : Type) : Type :=
| Done (a : A)
| Stopped                  (* st.stop() *)
| Raised (e : pyexc).      (* uncaught exception *)
Arguments Done {A} a.
Arguments Stopped {A}.
Arguments Raised {A} e.

Definition M (A : Type) : Type := state -> outcome A * state.

Definition ret {A} (a : A) : M A := fun s => (Done a, s).

Definition bind {A B} (m : M A) (f : A -> M B) : M B :=
  fun s =>
    match m s with
    | (Done a, s') => f a s'
    | (Stopped, s') => (Stopped, s')
    | (Raised e, s') => (Raised e, s')
    end.

Declare Scope script_scope.
Delimit Scope script_scope with script.
Notation "x <- m ;; k" := (bind m (fun x => k))
  (at level 61, m at next level, right associativity) : script_scope.
Notation "m ;; k" := (bind m (fun _ => k))
  (at level 61, right associativity) : script_scope.

Definition emit (e : event) : M unit :=
  fun s => (Done tt, {| log := log s ++ [e];
                        requests := requests s;
                        do_fetch := do_fetch s |}).

Definition st_stop {A} : M A := fun s => (Stopped, s).

Definition raise {A} (e : pyexc) : M A := fun s => (Raised e, s).

Definition lift {A} (r : result A) : M A :=
  match r with
  | Ok a => ret a
  | Err e => raise e
  end.

(** [try: body / except Exception as exc: handler]: [st.stop()] is not an
    [Exception] and passes through. *)
Definition try_except {A} (body : M A) (handler : pyexc -> M A) : M A :=
  fun s =>
    match body s with
    | (Raised e, s') => handler e s'
    | other => other
    end.

Definition set_do_fetch (b : bool) : M unit :=
  fun s => (Done tt, {| log := log s; requests := requests s; do_fetch := b |}).

Definition get_do_fetch : M bool := fun s => (Done (do_fetch s), s).

Definition when (b : bool) (m : M unit) : M unit :=
  if b then m else ret tt.

(* ------------------------------------------------------------------ *)
(** * The outside world of one pass                                     *)
(* ------------------------------------------------------------------ *)

(** [http_get n url] is what the [n]-th call of [requests.get] in the pass
    (counted from 0) gets from [url]: a response, or [None] when the call
    raises.  Two calls to one URL may be answered differently.
    [pressed k] is what [st.button] returns for the widget of key (or, with
    no key, label) [k]; [lang] and [gtin] are the selectbox and text-input
    values.  [lib_text] and [container_text] give the text of [str(exc)]
    for library exceptions and of [str(x)] for lists and dicts, which are
    produced by library code outside the script. *)
Record world : Type := mkWorld {
  http_get : nat -> string -> option response;
  pressed : string -> bool;
  lang : Language;
  gtin : string;
  lib_text : pyexc -> string;
  container_text : json -> string
}.

Section Script.

Variable W : world.

Local Open Scope script_scope.

(** [str(x)] *)
Definition str (j : json) : string :=
  match j with
  | JStr s => s
  | JNull => "None"
  | JBool true => "True"
  | JBool false => "False"
  | JNum z => NilZero.string_of_int (Z.to_int z)
  | _ => container_text W j
  end.

(** [str(exc)], as interpolated by an f-string.  A [KeyError] prints the
    [repr] of its key (the keys of the script are plain words). *)
Definition exc_text (e : pyexc) : string :=
  match e with
  | AssertionError a => str a
  | KeyError k => "'" ++ k ++ "'"
  | _ => lib_text W e
  end.

(** [requests.get(url, timeout=...)].  A URL that is not a string is
    refused by the library before anything is sent. *)
Definition requests_get (url : json) (timeout : option Z) : M response :=
  match url with
  | JStr u =>
      fun s =>
        let s' := {| log := log s ++ [ReqGet u timeout];
                     requests := S (requests s);
                     do_fetch := do_fetch s |} in
        match http_get W (requests s) u with
        | Some r => (Done r, s')
        | None => (Raised RequestException, s')
        end
  | _ => raise RequestException
  end.

(** [resp.raise_for_status()] *)
Definition raise_for_status (r : response) : M unit :=
  if ((400 <=? status_code r) && (status_code r <? 600))%Z
  then raise (HTTPError (status_code r))
  else ret tt.

(** [resp.json()] *)
Definition resp_json (r : response) : M json :=
  match body_json r with
  | Some j => ret j
  | None => raise JSONDecodeError
  end.

(** [st.button(label, key=key)] *)
Definition st_button (label : string) (key : option string) : M bool :=
  emit (EvButton label key);;
  ret (pressed W (match key with Some k => k | None => label end)).

(** [Path(x).name]; [Path] refuses what is not a string. *)
Definition Path_name_of (x : json) : result string :=
  match x with
  | JStr s => Ok (Py.Path_name s)
  | _ => Err TypeError
  end.

(** ** Input bar (lines 20-36) *)
Definition input_bar : M unit :=
  emit (EvPageConfig "Icecat Fetcher" "wide");;
  emit (EvTitle "📦 Icecat fetch → Smyths helper");;
  emit (EvColumns [1; 2; 1]%Z);;
  emit (EvColumn 0);;
  emit (EvSelectbox "Language" LANGUAGES_keys 2);;
  emit (EvColumn 1);;
  emit (EvTextInput "GTIN / EAN" (JStr "") false);;
  emit (EvColumn 2);;
  b <- st_button "Fetch" None;;
  when b (set_do_fetch true);;
  f <- get_do_fetch;;
  if negb f then st_stop else ret tt.

(** ** Fetch from Icecat (lines 41-57) *)
Definition url : string :=
  ICECAT_API ++ "?UserName=" ++ ICECAT_USER
    ++ "&Language=" ++ Py.upper (LANGUAGES (lang W)) ++ "&GTIN=" ++ gtin W.

Definition is_OK (j : json) : bool :=
  match j with
  | JStr s => String.eqb s "OK"
  | _ => false
  end.

Definition fetch_body : M json :=
  resp <- requests_get (JStr url) (Some TIMEOUT);;
  raise_for_status resp;;
  payload <- resp_json resp;;
  msg <- lift (Py.get payload "msg" JNull);;
  (if is_OK msg then ret tt
   else (msg' <- lift (Py.get payload "msg" JNull);;
         raise (AssertionError msg')));;
  lift (Py.getitem payload "data").

Definition gtin_guard : M unit :=
  if String.eqb (gtin W) "" then
    emit (EvWarning "Enter a GTIN first.");; st_stop
  else ret tt.

Definition fetch_from_icecat : M json :=
  try_except fetch_body
    (fun exc => emit (EvError ("Icecat error → " ++ exc_text exc));; st_stop).

(** ** Lines 64-66 *)
Definition short_or_long_summary (info : json) : result json :=
  (desc <~ Py.get info "SummaryDescription" (JObj []);
   long <~ Py.get desc "LongSummaryDescription" JNull;
   if Py.truthy long then Ok long
   else Py.get desc "ShortSummaryDescription" (JStr ""))%py.

(** ** 1. Basic info (lines 71-75) *)
Definition basic_info (info : json) : M unit :=
  emit (EvExpander "📝 Basic info" true);;
  name <- lift (Py.getitem info "ProductName");;
  emit (EvTextInput "Product name" name true);;
  code <- lift (Py.get info "BrandPartCode" (JStr ""));;
  emit (EvTextInput "Vendor article no." code true);;
  brand <- lift (Py.getitem info "Brand");;
  emit (EvTextInput "Brand" brand true);;
  d <- lift (short_or_long_summary info);;
  emit (EvTextArea "Description" d 160).

(** ** 2. Specification table (lines 80-95) *)

(** The inner [for feat in grp["Features"]] of the comprehension: the
    tuple is built for each feature, group name first. *)
Fixpoint feature_rows (grp : json) (feats : list json) : result (list row) :=
  match feats with
  | [] => Ok []
  | feat :: rest =>
      (gname <~ Py.path grp ["FeatureGroup"; "Name"; "Value"];
       fname <~ Py.path feat ["Feature"; "Name"; "Value"];
       value <~ Py.getitem feat "PresentationValue";
       rs <~ feature_rows grp rest;
       Ok ((gname, fname, value) :: rs))%py
  end.

(** The outer [for grp in data.get("FeaturesGroups", [])]. *)
Fixpoint group_rows (grps : list json) : result (list row) :=
  match grps with
  | [] => Ok []
  | grp :: rest =>
      (fs <~ Py.getitem grp "Features";
       feats <~ Py.iter fs;
       here <~ feature_rows grp feats;
       others <~ group_rows rest;
       Ok (here ++ others)%list)%py
  end.

Definition spec_rows (data : json) : result (list row) :=
  (gs <~ Py.get data "FeaturesGroups" (JArr []);
   grps <~ Py.iter gs;
   group_rows grps)%py.

Definition spec_table (data : json) : M unit :=
  emit (EvExpander "📑 Specification table" false);;
  rows <- lift (spec_rows data);;
  match rows with
  | [] => ret tt
  | _ => emit (EvDataframe rows
                 (Z.min 500 (35 + 26 * Z.of_nat (length rows))))
  end.

(** ** 3. Media (lines 100-148) *)

(** Lines 101-103 *)
Definition hero_image (image_data : json) : M unit :=
  a <- lift (Py.get image_data "Pic500x500" JNull);;
  hero <- (if Py.truthy a then ret a
           else lift (Py.get image_data "HighPic" JNull));;
  when (Py.truthy hero) (emit (EvImage hero (Some "Main image") None)).

(** The body of [for idx, pic in enumerate(gallery)] (lines 110-126);
    [zf] is the archive written so far. *)
Fixpoint gallery_loop (idx : nat) (pics : list json) (zf : list zip_entry)
  : M (list zip_entry) :=
  match pics with
  | [] => ret zf
  | pic :: rest =>
      thumb <- lift (Py.getitem pic "ThumbPic");;
      full <- lift (Py.getitem pic "Pic");;
      name <- lift (Path_name_of full);;
      emit (EvColumn (idx mod 4));;
      emit (EvImage thumb None (Some 130%Z));;
      b <- st_button "🔍" (Some ("pv" ++ Py.str_of_nat idx));;
      when b (emit (EvImage full (Some name) None));;
      r1 <- requests_get full None;;
      emit (EvDownloadButton "⬇ Full" (Raw (content r1)) name
              (Some "image/jpeg") (Some ("dl" ++ Py.str_of_nat idx)));;
      r2 <- requests_get full None;;
      gallery_loop (S idx) rest (zf ++ [(name, content r2)])
  end.

(** Lines 105-133 *)
Definition gallery_section (gallery : json) : M unit :=
  if Py.truthy gallery then
    emit (EvMarkdown "#### Gallery");;
    emit (EvColumns [1; 1; 1; 1]%Z);;
    pics <- lift (Py.iter gallery);;
    zf <- gallery_loop 0 pics [];;
    emit (EvDownloadButton "📦 Download all images (ZIP)" (ZipBuf zf)
            (gtin W ++ "_images.zip") (Some "application/zip") None)
  else ret tt.

(** [[m for m in media if keep(bool(m["IsVideo"]))]] (lines 135-136) *)
Fixpoint select (keep : bool -> bool) (ms : list json) : result (list json) :=
  match ms with
  | [] => Ok []
  | m :: rest =>
      (v <~ Py.getitem m "IsVideo";
       r <~ select keep rest;
       Ok (if keep (Py.truthy v) then m :: r else r))%py
  end.

Fixpoint videos_loop (vs : list json) : M unit :=
  match vs with
  | [] => ret tt
  | v :: rest =>
      u <- lift (Py.getitem v "URL");;
      emit (EvVideo u);;
      videos_loop rest
  end.

(** The label of line 145 *)
Definition pdf_label (p : json) : result string :=
  (d <~ Py.get p "Description" (JStr "PDF");
   x <~ (if Py.truthy d then Ok d
         else (u <~ Py.getitem p "URL";
               n <~ Path_name_of u;
               Ok (JStr n)));
   Ok ("⬇ " ++ str x))%py.

(** Lines 144-148 *)
Definition pdf_button (p : json) : M unit :=
  label <- lift (pdf_label p);;
  u <- lift (Py.getitem p "URL");;
  r <- requests_get u None;;
  u' <- lift (Py.getitem p "URL");;
  name <- lift (Path_name_of u');;
  emit (EvDownloadButton label (Raw (content r)) name None None).

Fixpoint pdfs_loop (ps : list json) : M unit :=
  match ps with
  | [] => ret tt
  | p :: rest => pdf_button p;; pdfs_loop rest
  end.

(** Lines 135-148 *)
Definition multimedia_section (media : json) : M unit :=
  ms <- lift (Py.iter media);;
  videos <- lift (select (fun b => b) ms);;
  ms' <- lift (Py.iter media);;
  pdfs <- lift (select negb ms');;
  (match videos with
   | [] => ret tt
   | _ => emit (EvMarkdown "#### Videos");; videos_loop videos
   end);;
  match pdfs with
  | [] => ret tt
  | _ => emit (EvMarkdown "#### PDFs");; pdfs_loop pdfs
  end.

Definition media_section (image_data gallery media : json) : M unit :=
  emit (EvExpander "🖼️ Media" true);;
  hero_image image_data;;
  gallery_section gallery;;
  multimedia_section media.

(** ** Lines 59-153: everything after the fetch *)
Definition extract_gallery (data : json) : result json :=
  (g <~ Py.get data "Gallery" (JArr []);
   Py.slice_to g MAX_GALLERY)%py.

Definition render (data : json) : M unit :=
  info <- lift (Py.getitem data "GeneralInfo");;
  image_data <- lift (Py.get data "Image" (JObj []));;
  gallery <- lift (extract_gallery data);;
  media <- lift (Py.get data "Multimedia" (JArr []));;
  basic_info info;;
  spec_table data;;
  media_section image_data gallery media;;
  emit (EvCaption "Icecat ➜ Smyths helper • Streamlit demo").

(** ** The whole script *)
Definition script : M unit :=
  input_bar;;
  gtin_guard;;
  data <- fetch_from_icecat;;
  render data.

Definition run (flag : bool) : outcome unit * state := script (init flag).

End Script.

(* ------------------------------------------------------------------ *)
(** * Vocabulary of the statements                                      *)
(* ------------------------------------------------------------------ *)

(** The user asked for a fetch: the button is pressed in this pass, or the
    session flag is left from an earlier one. *)
Definition submitted (W : world) (flag : bool) : Prop :=
  pressed W "Fetch" = true \/ flag = true.

(** The calls of the input bar, issued in every pass. *)
Definition input_bar_log : list event :=
  [ EvPageConfig "Icecat Fetcher" "wide";
    EvTitle "📦 Icecat fetch → Smyths helper";
    EvColumns [1; 2; 1]%Z;
    EvColumn 0;
    EvSelectbox "Language" LANGUAGES_keys 2;
    EvColumn 1;
    EvTextInput "GTIN / EAN" (JStr "") false;
    EvColumn 2;
    EvButton "Fetch" None ].

Definition after_input_bar : state :=
  {| log := input_bar_log; requests := 0; do_fetch := true |}.

(** The state in which rendering starts: the input bar and the one
    catalog request. *)
Definition fetched (W : world) : state :=
  {| log := input_bar_log ++ [ReqGet (url W) (Some TIMEOUT)];
     requests := 1;
     do_fetch := true |}.

Definition status_ok (r : response) : Prop :=
  (status_code r < 400 \/ 600 <= status_code r)%Z.

(** The first request of the pass is answered by a decodable object
    [env], the envelope. *)
Definition envelope (W : world) (env : list (string * json)) : Prop :=
  exists r, http_get W 0 (url W) = Some r
            /\ status_ok r
            /\ body_json r = Some (JObj env).

(** [payload.get("msg")] *)
Definition msg_of (env : list (string * json)) : json :=
  match Py.lookup "msg" env with
  | Some v => v
  | None => JNull
  end.

(** A successful response carrying [data]. *)
Definition successful (W : world) (data : json) : Prop :=
  exists env, envelope W env
              /\ Py.lookup "msg" env = Some (JStr "OK")
              /\ Py.lookup "data" env = Some data.

Definition is_request (e : event) : bool :=
  match e with
  | ReqGet _ _ => true
  | _ => false
  end.

Definition is_error (e : event) : bool :=
  match e with
  | EvError _ => true
  | _ => false
  end.

(** Append calls to the log of a state. *)
Definition logged (s : state) (evs : list event) (extra_requests : nat) : state :=
  {| log := log s ++ evs;
     requests := extra_requests + requests s;
     do_fetch := do_fetch s |}.

(** Why the [try] block of lines 49-57 can end in its [except] clause,
    with the exception that reaches it. *)
Inductive conversion_cause (o : option response) : pyexc -> Prop :=
| transport_failure :
    o = None ->
    conversion_cause o RequestException
| error_status r :
    o = Some r -> ~ status_ok r ->
    conversion_cause o (HTTPError (status_code r))
| undecodable_body r :
    o = Some r -> status_ok r -> body_json r = None ->
    conversion_cause o JSONDecodeError
| payload_not_object r j :
    o = Some r -> status_ok r -> body_json r = Some j ->
    (forall env, j <> JObj env) ->
    conversion_cause o AttributeError
| msg_not_OK r env :
    o = Some r -> status_ok r -> body_json r = Some (JObj env) ->
    msg_of env <> JStr "OK" ->
    conversion_cause o (AssertionError (msg_of env))
| data_missing r env :
    o = Some r -> status_ok r -> body_json r = Some (JObj env) ->
    msg_of env = JStr "OK" -> Py.lookup "data" env = None ->
    conversion_cause o (KeyError "data").

(* ------------------------------------------------------------------ *)
(** * Input bar and catalog client                                      *)
(* ------------------------------------------------------------------ *)

(** A field that is present with a truthy value (for a string: present
    and not empty). *)
Definition usable (o : option json) : option json :=
  match o with
  | Some v => if Py.truthy v then Some v else None
  | None => None
  end.

(** The fields of [info.get("SummaryDescription", {})], when that is a
    dict. *)
Definition summary_fields (info : list (string * json))
  : option (list (string * json)) :=
  match Py.lookup "SummaryDescription" info with
  | None => Some []
  | Some (JObj desc) => Some desc
  | Some _ => None
  end.

(** The description to show: the long summary when present and not empty,
    otherwise the short summary when its key is present, otherwise [""]. *)
Definition description_choice (desc : list (string * json)) : json :=
  match usable (Py.lookup "LongSummaryDescription" desc) with
  | Some long => long
  | None =>
      match Py.lookup "ShortSummaryDescription" desc with
      | Some short => short
      | None => JStr ""
      end
  end.

(** [info.get("BrandPartCode", "")] *)
Definition vendor_code (info : list (string * json)) : json :=
  match Py.lookup "BrandPartCode" info with
  | Some c => c
  | None => JStr ""
  end.



Definition basic_info_expander : event := EvExpander "📝 Basic info" true.

(** The hero image to show: the 500x500 variant when present and not
    empty, otherwise the high-resolution variant when present and not
    empty, otherwise none. *)
Definition hero_choice (img : list (string * json)) : option json :=
  match usable (Py.lookup "Pic500x500" img) with
  | Some a => Some a
  | None => usable (Py.lookup "HighPic" img)
  end.

Definition hero_calls (hero : option json) : list event :=
  match hero with
  | Some h => [EvImage h (Some "Main image") None]
  | None => []
  end.

(** The text behind the arrow of a PDF button: the description when
    present and truthy, ["PDF"] when the key is absent, the file name of
    the URL when the description is present but empty. *)
Definition label_choice (p : list (string * json)) (filename : string) : json :=
  match Py.lookup "Description" p with
  | None => JStr "PDF"
  | Some d => if Py.truthy d then d else JStr filename
  end.

Definition has_flag (m : json) : Prop :=
  exists v, Py.getitem m "IsVideo" = Ok v.

(** The entries kept by a comprehension of lines 135-136. *)
Definition flagged (keep : bool -> bool) (m : json) : bool :=
  match Py.getitem m "IsVideo" with
  | Ok v => keep (Py.truthy v)
  | Err _ => false
  end.

(** A feature [feat] of group [grp] contributes the row [t]. *)
Definition feature_triple (grp feat : json) (t : row) : Prop :=
  Py.path grp ["FeatureGroup"; "Name"; "Value"] = Ok (fst (fst t))
  /\ Py.path feat ["Feature"; "Name"; "Value"] = Ok (snd (fst t))
  /\ Py.getitem feat "PresentationValue" = Ok (snd t).

(** The group [grp] lists features that contribute the rows [ts], in
    order. *)
Definition group_triples (grp : json) (ts : list row) : Prop :=
  exists feats,
    Py.getitem grp "Features" = Ok (JArr feats)
    /\ Forall2 (feature_triple grp) feats ts.

Definition table_calls (rows : list row) : list event :=
  match rows with
  | [] => []
  | _ => [EvDataframe rows (Z.min 500 (35 + 26 * Z.of_nat (length rows)))]
  end.

(** ** Observing the gallery in a log *)

(** [st.image(thumb, width=130)]: the only images given a width. *)
Definition is_thumbnail (e : event) : bool :=
  match e with
  | EvImage _ _ (Some _) => true
  | _ => false
  end.

(** The per-image download buttons: the only ones given a key. *)
Definition is_full_download (e : event) : bool :=
  match e with
  | EvDownloadButton _ _ _ _ (Some _) => true
  | _ => false
  end.


Definition count (f : event -> bool) (evs : list event) : nat :=
  length (filter f evs).











(** ** Observing a whole pass *)

Definition footer : event :=
  EvCaption "Icecat ➜ Smyths helper • Streamlit demo".

(** The calls that the three rendering sections issue: disabled fields,
    tables, images, keyed buttons, downloads, videos, and requests without
    a timeout.  The input bar's widgets, the inline messages, the footer
    and a request with a timeout are not among them. *)
Definition section_call (e : event) : Prop :=
  match e with
  | EvExpander _ _ => True
  | EvTextInput _ _ true => True
  | EvTextArea _ _ _ => True
  | EvDataframe _ _ => True
  | EvImage _ _ _ => True
  | EvMarkdown _ => True
  | EvColumns _ => True
  | EvColumn _ => True
  | EvButton _ (Some _) => True
  | EvDownloadButton _ _ _ _ _ => True
  | EvVideo _ => True
  | ReqGet _ None => True
  | _ => False
  end.

(** [m] only appends section calls to the log, leaves the session flag
    alone and never calls [st.stop()]. *)
Definition calm {A} (m : M A) : Prop :=
  forall s, exists evs,
    log (snd (m s)) = (log s ++ evs)%list
    /\ Forall section_call evs
    /\ do_fetch (snd (m s)) = do_fetch s
    /\ fst (m s) <> Stopped.

(** [m] is calm and, exactly when it returns, ends with the footer. *)
Definition finishing (m : M unit) : Prop :=
  forall s, exists evs,
    Forall section_call evs
    /\ do_fetch (snd (m s)) = do_fetch s
    /\ ((fst (m s) = Done tt
         /\ log (snd (m s)) = (log s ++ evs ++ [footer])%list)
        \/ ((exists e, fst (m s) = Raised e)
            /\ log (snd (m s)) = (log s ++ evs)%list)).

Definition is_message (e : event) : bool :=
  match e with
  | EvWarning _ => true
  | EvError _ => true
  | _ => false
  end.

Definition is_section_start (e : event) : bool :=
  match e with
  | EvExpander _ _ => true
  | _ => false
  end.

Definition is_timed_request (e : event) : bool :=
  match e with
  | ReqGet _ (Some _) => true
  | _ => false
  end.














(* ------------------------------------------------------------------ *)
(** * Sample worlds and payloads                                        *)
(* ------------------------------------------------------------------ *)

Module Demo.

(** A world in which the user pressed Fetch with English selected; the
  catalog request gets [first], and the [n]-th request after it gets
  [n] bytes with status 200. *)
Definition world_of (first : option response) (g : string) : world :=
{| http_get := fun n _ =>
     match n with
     | O => first
     | S _ => Some (mkResponse 200 (repeat "*"%byte n) None)
     end;
   pressed := fun k => String.eqb k "Fetch";
   lang := EN;
   gtin := g;
   lib_text := fun _ => "";
   container_text := fun _ => "" |}.

Definition answer (payload : json) : option response :=
Some (mkResponse 200 [] (Some payload)).

Definition accept (data : json) : option response :=
answer (JObj [("msg", JStr "OK"); ("data", data)]).

Definition sample_gtin : string := "0882780751682".

Definition no_gtin : world :=
  world_of (Some (mkResponse 200 [] None)) "".

Definition rejected : world :=
world_of (answer (JObj [("msg", JStr "Product not found")])) sample_gtin.

Definition no_data : world :=
world_of (answer (JObj [("msg", JStr "OK")])) sample_gtin.

Definition no_general_info : world :=
world_of (accept (JObj [("Gallery", JArr [])])) sample_gtin.

Definition empty_long : list (string * json) :=
  [("LongSummaryDescription", JStr "");
   ("ShortSummaryDescription", JStr "abc")].

Definition info_empty_long : list (string * json) :=
  [("ProductName", JStr "Widget X"); ("Brand", JStr "Acme");
   ("SummaryDescription", JObj empty_long)].



Definition empty_500 : list (string * json) :=
  [("Pic500x500", JStr ""); ("HighPic", JStr "http://h/hi.jpg")].

Definition manual : list (string * json) :=
  [("IsVideo", JBool false); ("URL", JStr "http://h/docs/manual.pdf")].

Definition no_flag : list (string * json) :=
  [("URL", JStr "http://h/docs/manual.pdf")].

Definition feature (name value : string) : json :=
  JObj [("Feature", JObj [("Name", JObj [("Value", JStr name)])]);
        ("PresentationValue", JStr value)].

Definition dims : json :=
  JObj [("FeatureGroup", JObj [("Name", JObj [("Value", JStr "Dimensions")])]);
        ("Features", JArr [feature "Width" "5 cm"; feature "Height" "7 cm"])].

Definition power : json :=
  JObj [("FeatureGroup", JObj [("Name", JObj [("Value", JStr "Power")])]);
        ("Features", JArr [feature "Voltage" "230 V"])].

Definition pic (n : string) : json :=
  JObj [("ThumbPic", JStr ("http://h/thumb/" ++ n));
        ("Pic", JStr ("http://h/full/" ++ n))].





Definition many_pics : list json := repeat (pic "a.jpg") 22.

Definition many_pics_world : world :=
  world_of (accept (JObj [("GeneralInfo", JObj info_empty_long);
                          ("Gallery", JArr many_pics)])) sample_gtin.


Definition null_data : world := world_of (accept JNull) sample_gtin.

Definition null_gallery : list (string * json) :=
  [("GeneralInfo", JObj info_empty_long); ("Gallery", JNull)].

Definition null_gallery_world : world :=
  world_of (accept (JObj null_gallery)) sample_gtin.

Definition info_null_summary : list (string * json) :=
  [("ProductName", JStr "Widget X"); ("Brand", JStr "Acme");
   ("SummaryDescription", JNull)].

(** A 404 whose body would otherwise be accepted. *)
Definition not_found : world :=
  world_of (Some (mkResponse 404 []
                    (Some (JObj [("msg", JStr "OK");
                                 ("data", JObj null_gallery)]))))
           sample_gtin.

(** A group without a name and without features, and a group whose second
    feature has no presentation value. *)
Definition nameless_empty : list (string * json) := [("Features", JArr [])].

Definition broken : json :=
  JObj [("FeatureGroup", JObj [("Name", JObj [("Value", JStr "Broken")])]);
        ("Features",
         JArr [feature "Width" "5 cm";
               JObj [("Feature",
                      JObj [("Name", JObj [("Value", JStr "Depth")])])]])].

Definition clip : json :=
  JObj [("IsVideo", JBool true); ("URL", JStr "http://h/clip.mp4")].

Definition leaflet : json :=
  JObj [("IsVideo", JBool false); ("URL", JStr "http://h/docs/leaflet.pdf");
        ("Description", JStr "Leaflet")].

(** PDFs before and after a video. *)
Definition mixed_media : list json := [JObj manual; clip; leaflet].


End Demo.

(** One step of symbolic execution: unfold the monad's operations and
    reduce, leaving the Python operations and the strings alone. *)
Ltac mstep :=
  cbv beta iota delta
    [bind ret lift raise st_stop emit when try_except rbind].

Section CatalogClient.

Variable W : world.

Lemma input_bar_submitted (flag : bool) :
  submitted W flag -> input_bar W (init flag) = (Done tt, after_input_bar).
Proof.
  unfold submitted, input_bar, st_button, set_do_fetch, get_do_fetch, init,
    after_input_bar.
  intros [Hp | Hf]; mstep; cbn [log requests do_fetch app].
  - rewrite Hp. reflexivity.
  - subst flag. destruct (pressed W "Fetch"); reflexivity.
Qed.

Lemma input_bar_idle :
  pressed W "Fetch" = false ->
  input_bar W (init false)
  = (Stopped, {| log := input_bar_log; requests := 0; do_fetch := false |}).
Proof.
  unfold input_bar, st_button, set_do_fetch, get_do_fetch, init.
  intros Hp. mstep. cbn [log requests do_fetch app].
  rewrite Hp. reflexivity.
Qed.

Lemma gtin_guard_passes (s : state) :
  gtin W <> "" -> gtin_guard W s = (Done tt, s).
Proof.
  intros Hg. unfold gtin_guard.
  destruct (String.eqb_spec (gtin W) ""); [contradiction | reflexivity].
Qed.

Lemma status_ok_test (r : response) :
  status_ok r ->
  ((400 <=? status_code r) && (status_code r <? 600))%Z = false.
Proof.
  unfold status_ok. intros H.
  apply andb_false_iff.
  destruct H; [left; apply Z.leb_gt | right; apply Z.ltb_ge]; lia.
Qed.

Lemma status_bad_test (r : response) :
  ~ status_ok r ->
  ((400 <=? status_code r) && (status_code r <? 600))%Z = true.
Proof.
  unfold status_ok. intros H.
  apply andb_true_iff. split; [apply Z.leb_le | apply Z.ltb_lt]; lia.
Qed.

Lemma is_OK_msg (env : list (string * json)) :
  is_OK (msg_of env) = true <-> msg_of env = JStr "OK".
Proof.
  split.
  - destruct (msg_of env); simpl; try discriminate.
    intros H. apply String.eqb_eq in H. now subst.
  - intros ->. reflexivity.
Qed.

Lemma get_msg (env : list (string * json)) :
  Py.get (JObj env) "msg" JNull = Ok (msg_of env).
Proof.
  unfold Py.get, msg_of. destruct (Py.lookup "msg" env); reflexivity.
Qed.

(** The [try] block, run on its own: the one request is logged, and the
    block returns [data] or raises. *)
Lemma fetch_body_raises (s : state) (e : pyexc) :
  conversion_cause (http_get W (requests s) (url W)) e ->
  fetch_body W s = (Raised e, logged s [ReqGet (url W) (Some TIMEOUT)] 1).
Proof.
  intros C. unfold fetch_body, requests_get, raise_for_status, resp_json,
    logged. simpl Nat.add.
  destruct C as [E | r E B | r E G D | r j E G D N | r env E G D N
                | r env E G D N K]; mstep; rewrite E;
    try rewrite (status_bad_test r B);
    try rewrite (status_ok_test r G); mstep; try reflexivity;
    rewrite D; mstep; try reflexivity.
  - destruct j; try reflexivity. exfalso. now apply (N fields).
  - rewrite get_msg. mstep.
    destruct (is_OK (msg_of env)) eqn:T; mstep.
    + apply is_OK_msg in T. contradiction.
    + reflexivity.
  - rewrite get_msg. mstep.
    rewrite (proj2 (is_OK_msg env) N). mstep.
    unfold Py.getitem. rewrite K. reflexivity.
Qed.

Lemma fetch_body_returns (s : state) (r : response)
      (env : list (string * json)) (data : json) :
  http_get W (requests s) (url W) = Some r ->
  status_ok r ->
  body_json r = Some (JObj env) ->
  msg_of env = JStr "OK" ->
  Py.lookup "data" env = Some data ->
  fetch_body W s = (Done data, logged s [ReqGet (url W) (Some TIMEOUT)] 1).
Proof.
  intros E G D N K.
  unfold fetch_body, requests_get, raise_for_status, resp_json, logged.
  simpl Nat.add. mstep.
  rewrite E, (status_ok_test r G). mstep.
  rewrite D. mstep. rewrite get_msg. mstep.
  rewrite (proj2 (is_OK_msg env) N). mstep.
  unfold Py.getitem. rewrite K. reflexivity.
Qed.

(** Every answer of the network falls in exactly one of the two cases
    above. *)
Lemma fetch_cases (o : option response) :
  (exists e, conversion_cause o e)
  \/ (exists r env data,
        o = Some r /\ status_ok r /\ body_json r = Some (JObj env)
        /\ msg_of env = JStr "OK" /\ Py.lookup "data" env = Some data).
Proof.
  destruct o as [r |].
  2: { left. eexists. now apply transport_failure. }
  assert (G : status_ok r \/ ~ status_ok r) by (unfold status_ok; lia).
  destruct G as [G | B].
  2: { left. eexists. now apply (error_status _ r). }
  destruct (body_json r) as [j |] eqn:D.
  2: { left. eexists. now apply (undecodable_body _ r). }
  assert (J : (exists env, j = JObj env) \/ (forall env, j <> JObj env)).
  { destruct j; try (right; intros env; discriminate).
    left. now eexists. }
  destruct J as [[env ->] | J].
  2: { left. eexists. now apply (payload_not_object _ r j). }
  destruct (is_OK (msg_of env)) eqn:T.
  - apply is_OK_msg in T.
    destruct (Py.lookup "data" env) as [data |] eqn:K.
    + right. now exists r, env, data.
    + left. eexists. now apply (data_missing _ r env).
  - left. eexists. apply (msg_not_OK _ r env); auto.
    intros N. apply is_OK_msg in N. congruence.
Qed.

Lemma fetch_converts (s : state) (e : pyexc) :
  conversion_cause (http_get W (requests s) (url W)) e ->
  fetch_from_icecat W s
  = (Stopped,
     logged s [ReqGet (url W) (Some TIMEOUT);
               EvError ("Icecat error → " ++ exc_text W e)] 1).
Proof.
  intros C. unfold fetch_from_icecat, try_except.
  rewrite (fetch_body_raises s e C).
  unfold logged. mstep. simpl log. simpl requests. simpl do_fetch.
  rewrite <- app_assoc. reflexivity.
Qed.

Lemma fetch_succeeds (s : state) (r : response)
      (env : list (string * json)) (data : json) :
  http_get W (requests s) (url W) = Some r ->
  status_ok r ->
  body_json r = Some (JObj env) ->
  msg_of env = JStr "OK" ->
  Py.lookup "data" env = Some data ->
  fetch_from_icecat W s
  = (Done data, logged s [ReqGet (url W) (Some TIMEOUT)] 1).
Proof.
  intros E G D N K. unfold fetch_from_icecat, try_except.
  now rewrite (fetch_body_returns s r env data E G D N K).
Qed.

(** With a GTIN and a successful response, the pass is the rendering of
    [data] from the state [fetched]. *)
Lemma run_renders (flag : bool) (data : json) :
  submitted W flag -> gtin W <> "" -> successful W data ->
  run W flag = render W data (fetched W).
Proof.
  intros Hs Hg (env & (r & E & G & D) & N & K).
  unfold run, script, bind.
  rewrite (input_bar_submitted flag Hs).
  rewrite (gtin_guard_passes _ Hg).
  assert (N' : msg_of env = JStr "OK") by (unfold msg_of; now rewrite N).
  rewrite (fetch_succeeds after_input_bar r env data E G D N' K).
  reflexivity.
Qed.

Lemma run_converts (flag : bool) (e : pyexc) :
  submitted W flag -> gtin W <> "" ->
  conversion_cause (http_get W 0 (url W)) e ->
  run W flag
  = (Stopped,
     logged (fetched W) [EvError ("Icecat error → " ++ exc_text W e)] 0).
Proof.
  intros Hs Hg C.
  unfold run, script, bind.
  rewrite (input_bar_submitted flag Hs).
  rewrite (gtin_guard_passes _ Hg).
  rewrite (fetch_converts after_input_bar e C).
  reflexivity.
Qed.

End CatalogClient.

(* ------------------------------------------------------------------ *)
(** * Claims about the input bar and the catalog client                 *)
(* ------------------------------------------------------------------ *)

(** C9. Empty-GTIN guard: when a fetch is submitted with an empty GTIN, the
    pass issues the input bar and one warning, then stops; the request URL
    is never used, so the pass contains no [requests.get] call at all. *)
Theorem empty_gtin_stops_before_any_request (W : world) (flag : bool) :
  submitted W flag ->
  gtin W = "" ->
  exists s,
    run W flag = (Stopped, s)
    /\ log s = (input_bar_log ++ [EvWarning "Enter a GTIN first."])%list
    /\ requests s = 0
    /\ Forall (fun e => is_request e = false) (log s).
Proof.
  intros Hs Hg.
  eexists. split.
  - unfold run, script, bind.
    rewrite (input_bar_submitted W flag Hs).
    unfold gtin_guard. rewrite Hg. simpl String.eqb. mstep. reflexivity.
  - simpl. repeat split. repeat constructor.
Qed.

Lemma empty_gtin_stops_before_any_request_witness :
  submitted Demo.no_gtin false
  /\ gtin Demo.no_gtin = ""
  /\ exists s,
       run Demo.no_gtin false = (Stopped, s)
       /\ log s = (input_bar_log ++ [EvWarning "Enter a GTIN first."])%list
       /\ requests s = 0
       /\ Forall (fun e => is_request e = false) (log s).
Proof.
  assert (Hs : submitted Demo.no_gtin false) by (left; reflexivity).
  assert (Hg : gtin Demo.no_gtin = "") by reflexivity.
  exact (conj Hs (conj Hg
           (empty_gtin_stops_before_any_request Demo.no_gtin false Hs Hg))).
Defined.

(** C3, as stated, fails: the message shown for a rejected envelope is not
    the envelope's [msg] field itself.  For the envelope
    [{"msg": "Product not found"}] the pass shows
    ["Icecat error → Product not found"] and never the bare field. *)
Lemma rejected_envelope_message_is_not_the_bare_field :
  envelope Demo.rejected [("msg", JStr "Product not found")]
  /\ exists s,
       run Demo.rejected false = (Stopped, s)
       /\ In (EvError "Icecat error → Product not found") (log s)
       /\ ~ In (EvError "Product not found") (log s).
Proof.
  split.
  - eexists. repeat split. left. reflexivity.
  - eexists. split; [reflexivity |]. split.
    + simpl. tauto.
    + simpl. intros H.
      repeat (destruct H as [H | H]; [discriminate H |]). exact H.
Qed.

(** C3, amended. Envelope rejection: for every decoded envelope whose
    [msg] field is not ["OK"] (or is absent), the pass stops right after
    the catalog request, before any product data is extracted; it shows
    exactly one error, whose text is the prefix ["Icecat error → "]
    followed by the text of the envelope's [msg] field, and renders no
    section. *)
Theorem rejected_envelope_stops_with_prefixed_message
        (W : world) (flag : bool) (env : list (string * json)) :
  submitted W flag ->
  gtin W <> "" ->
  envelope W env ->
  msg_of env <> JStr "OK" ->
  run W flag
  = (Stopped,
     {| log := input_bar_log
               ++ [ReqGet (url W) (Some TIMEOUT);
                   EvError ("Icecat error → " ++ str W (msg_of env))];
        requests := 1;
        do_fetch := true |}).
Proof.
  intros Hs Hg (r & E & G & D) N.
  rewrite (run_converts W flag (AssertionError (msg_of env)) Hs Hg).
  - reflexivity.
  - now apply (msg_not_OK _ r env).
Qed.

Lemma rejected_envelope_stops_with_prefixed_message_witness :
  submitted Demo.rejected false
  /\ gtin Demo.rejected <> ""
  /\ envelope Demo.rejected [("msg", JStr "Product not found")]
  /\ msg_of [("msg", JStr "Product not found")] <> JStr "OK"
  /\ run Demo.rejected false
     = (Stopped,
        {| log := input_bar_log
                  ++ [ReqGet (url Demo.rejected) (Some TIMEOUT);
                      EvError "Icecat error → Product not found"];
           requests := 1;
           do_fetch := true |}).
Proof.
  assert (Hs : submitted Demo.rejected false) by (left; reflexivity).
  assert (Hg : gtin Demo.rejected <> "") by discriminate.
  assert (He : envelope Demo.rejected [("msg", JStr "Product not found")]).
  { eexists. repeat split. left. reflexivity. }
  assert (Hm : msg_of [("msg", JStr "Product not found")] <> JStr "OK")
    by discriminate.
  exact (conj Hs (conj Hg (conj He (conj Hm
           (rejected_envelope_stops_with_prefixed_message
              Demo.rejected false _ Hs Hg He Hm))))).
Defined.

(** C10, as stated, fails in its first half: the conversion to the inline
    error is not limited to transport failure, error status, undecodable
    body and a non-["OK"] [msg].  The envelope [{"msg": "OK"}] arrives with
    status 200, decodes, and carries [msg == "OK"], yet the pass ends with
    the inline error, because [payload["data"]] is inside the [try]. *)
Lemma conversion_also_covers_a_missing_data_key :
  envelope Demo.no_data [("msg", JStr "OK")]
  /\ msg_of [("msg", JStr "OK")] = JStr "OK"
  /\ run Demo.no_data false
     = (Stopped,
        {| log := input_bar_log
                  ++ [ReqGet (url Demo.no_data) (Some TIMEOUT);
                      EvError "Icecat error → 'data'"];
           requests := 1;
           do_fetch := true |}).
Proof.
  split.
  - eexists. repeat split. left. reflexivity.
  - split; reflexivity.
Qed.

(** C10, amended. The catalog client's conversion to the single inline
    error covers six causes: transport failure, error status, undecodable
    body, a payload that is not an object, a [msg] other than ["OK"], and
    a missing ["data"] key; in every other case it returns [data] and shows
    no error.  The extraction of [data["GeneralInfo"]] is outside the
    [try]: for every successful envelope whose data object lacks the
    ["GeneralInfo"] key, the pass ends with an uncaught
    [KeyError "GeneralInfo"] right after the request, and no inline error
    is shown. *)
Theorem missing_GeneralInfo_is_not_converted
        (W : world) (flag : bool) (d : list (string * json)) :
  submitted W flag ->
  gtin W <> "" ->
  successful W (JObj d) ->
  Py.lookup "GeneralInfo" d = None ->
  (run W flag = (Raised (KeyError "GeneralInfo"), fetched W)
   /\ Forall (fun e => is_error e = false) (log (fetched W)))
  /\ forall s,
      (exists e,
          conversion_cause (http_get W (requests s) (url W)) e
          /\ fetch_from_icecat W s
             = (Stopped,
                logged s [ReqGet (url W) (Some TIMEOUT);
                          EvError ("Icecat error → " ++ exc_text W e)] 1))
      \/ (exists r env data,
             http_get W (requests s) (url W) = Some r
             /\ status_ok r
             /\ body_json r = Some (JObj env)
             /\ msg_of env = JStr "OK"
             /\ Py.lookup "data" env = Some data
             /\ fetch_from_icecat W s
                = (Done data, logged s [ReqGet (url W) (Some TIMEOUT)] 1)).
Proof.
  intros Hs Hg Hok Hn. split.
  - split.
    + rewrite (run_renders W flag (JObj d) Hs Hg Hok).
      unfold render. mstep. unfold Py.getitem. rewrite Hn. reflexivity.
    + simpl. repeat constructor.
  - intros s.
    destruct (fetch_cases (http_get W (requests s) (url W)))
      as [[e C] | (r & env & data & E & G & D & N & K)].
    + left. exists e. split; [exact C | now apply fetch_converts].
    + right. exists r, env, data. repeat split; auto.
      now apply (fetch_succeeds W s r env data).
Qed.

Lemma missing_GeneralInfo_is_not_converted_witness :
  submitted Demo.no_general_info false
  /\ gtin Demo.no_general_info <> ""
  /\ successful Demo.no_general_info (JObj [("Gallery", JArr [])])
  /\ Py.lookup "GeneralInfo" [("Gallery", JArr [])] = None
  /\ run Demo.no_general_info false
     = (Raised (KeyError "GeneralInfo"), fetched Demo.no_general_info).
Proof.
  assert (Hs : submitted Demo.no_general_info false) by (left; reflexivity).
  assert (Hg : gtin Demo.no_general_info <> "") by discriminate.
  assert (Hok : successful Demo.no_general_info (JObj [("Gallery", JArr [])])).
  { exists [("msg", JStr "OK"); ("data", JObj [("Gallery", JArr [])])].
    split; [| split; reflexivity].
    eexists. repeat split. left. reflexivity. }
  assert (Hn : Py.lookup "GeneralInfo" [("Gallery", JArr [])] = None)
    by reflexivity.
  exact (conj Hs (conj Hg (conj Hok (conj Hn
           (proj1 (proj1 (missing_GeneralInfo_is_not_converted
              Demo.no_general_info false _ Hs Hg Hok Hn))))))).
Defined.

(* ------------------------------------------------------------------ *)
(** * Claims about the basic-info section                               *)
(* ------------------------------------------------------------------ *)

Lemma summary_is_choice (info desc : list (string * json)) :
  summary_fields info = Some desc ->
  short_or_long_summary (JObj info) = Ok (description_choice desc).
Proof.
  unfold summary_fields, short_or_long_summary, description_choice, usable.
  unfold Py.get at 1.
  destruct (Py.lookup "SummaryDescription" info) as [j |].
  - destruct j; try discriminate. intros [= ->].
    unfold rbind, Py.get.
    destruct (Py.lookup "LongSummaryDescription" desc) as [long |].
    + destruct (Py.truthy long); [reflexivity |].
      destruct (Py.lookup "ShortSummaryDescription" desc); reflexivity.
    + simpl. destruct (Py.lookup "ShortSummaryDescription" desc); reflexivity.
  - intros [= <-]. reflexivity.
Qed.

(** The section rendered in full: both required fields are there and the
    summary can be read. *)
Lemma basic_info_renders (info : list (string * json)) (n b v : json)
      (s : state) :
  Py.lookup "ProductName" info = Some n ->
  Py.lookup "Brand" info = Some b ->
  short_or_long_summary (JObj info) = Ok v ->
  basic_info (JObj info) s
  = (Done tt,
     logged s [ basic_info_expander;
                EvTextInput "Product name" n true;
                EvTextInput "Vendor article no." (vendor_code info) true;
                EvTextInput "Brand" b true;
                EvTextArea "Description" v 160 ] 0).
Proof.
  intros Hn Hb Hv. unfold basic_info, vendor_code, logged.
  unfold Py.getitem, Py.get at 1. rewrite Hn, Hb, Hv. mstep.
  destruct (Py.lookup "BrandPartCode" info); simpl;
    repeat rewrite <- app_assoc; reflexivity.
Qed.




Lemma render_unsliceable_gallery (W : world) (d : list (string * json))
      (info : json) (e : pyexc) (s : state) :
  Py.lookup "GeneralInfo" d = Some info ->
  extract_gallery (JObj d) = Err e ->
  render W (JObj d) s = (Raised e, s).
Proof.
  intros Hi Hg. unfold render.
  unfold Py.getitem at 1, Py.get at 1.
  rewrite Hi, Hg.
  destruct (Py.lookup "Image" d); reflexivity.
Qed.

(** C1, as stated, fails: with both summaries present, the long one being
    the empty string, the description shown is the short summary. *)
Lemma empty_long_summary_shows_the_short_one :
  Py.lookup "LongSummaryDescription" Demo.empty_long = Some (JStr "")
  /\ Py.lookup "ShortSummaryDescription" Demo.empty_long = Some (JStr "abc")
  /\ short_or_long_summary (JObj Demo.info_empty_long) = Ok (JStr "abc")
  /\ short_or_long_summary (JObj Demo.info_empty_long) <> Ok (JStr "")
  /\ basic_info (JObj Demo.info_empty_long) (init true)
     = (Done tt,
        logged (init true)
          [ basic_info_expander;
            EvTextInput "Product name" (JStr "Widget X") true;
            EvTextInput "Vendor article no." (JStr "") true;
            EvTextInput "Brand" (JStr "Acme") true;
            EvTextArea "Description" (JStr "abc") 160 ] 0).
Proof.
  repeat split; try reflexivity. discriminate.
Qed.

(** C1, amended. Description resolution: for every product payload whose
    summary is absent or an object, the description shown equals the long
    summary when it is present and not empty; otherwise it equals the short
    summary when that key is present; otherwise it is the empty string.
    This is the value passed to the description text area. *)
Theorem description_is_nonempty_long_else_short_else_empty
        (info desc : list (string * json)) (n b : json) (s : state) :
  summary_fields info = Some desc ->
  Py.lookup "ProductName" info = Some n ->
  Py.lookup "Brand" info = Some b ->
  short_or_long_summary (JObj info) = Ok (description_choice desc)
  /\ basic_info (JObj info) s
     = (Done tt,
        logged s [ basic_info_expander;
                   EvTextInput "Product name" n true;
                   EvTextInput "Vendor article no." (vendor_code info) true;
                   EvTextInput "Brand" b true;
                   EvTextArea "Description" (description_choice desc) 160 ] 0).
Proof.
  intros Hd Hn Hb.
  pose proof (summary_is_choice info desc Hd) as Hv.
  split; [exact Hv | now apply basic_info_renders].
Qed.

Lemma description_is_nonempty_long_else_short_else_empty_witness :
  summary_fields Demo.info_empty_long = Some Demo.empty_long
  /\ description_choice Demo.empty_long = JStr "abc"
  /\ short_or_long_summary (JObj Demo.info_empty_long)
     = Ok (description_choice Demo.empty_long).
Proof.
  split; [reflexivity | split; [reflexivity |]].
  exact (proj1 (description_is_nonempty_long_else_short_else_empty
                  Demo.info_empty_long Demo.empty_long
                  (JStr "Widget X") (JStr "Acme") (init true)
                  eq_refl eq_refl eq_refl)).
Defined.



(* ------------------------------------------------------------------ *)
(** * Claims about the specification table                              *)
(* ------------------------------------------------------------------ *)

Lemma feature_rows_ok (grp : json) (feats : list json) (ts : list row) :
  Forall2 (feature_triple grp) feats ts ->
  feature_rows grp feats = Ok ts.
Proof.
  induction 1 as [| feat t feats ts (Hg & Hf & Hv) _ IH].
  - reflexivity.
  - cbn [feature_rows]. rewrite Hg, Hf, Hv, IH. cbn [rbind].
    now destruct t as [[gn fn] v].
Qed.

Lemma group_rows_ok (grps : list json) (tss : list (list row)) :
  Forall2 group_triples grps tss ->
  group_rows grps = Ok (concat tss).
Proof.
  induction 1 as [| grp ts grps tss (feats & Hf & Hts) _ IH].
  - reflexivity.
  - cbn [group_rows]. rewrite Hf. cbn [rbind Py.iter].
    rewrite (feature_rows_ok grp feats ts Hts), IH. reflexivity.
Qed.

Lemma concat_length_rows (tss : list (list row)) :
  length (concat tss) = list_sum (map (@length row) tss).
Proof.
  induction tss as [| ts tss IH]; [reflexivity |].
  cbn [concat map list_sum]. now rewrite length_app, IH.
Qed.

(** C7. Spec table construction: the rows are the (group name, feature
    name, presentation value) triples of [FeaturesGroups], one per feature,
    groups in payload order and features in order inside each group; the
    section shows one table holding them, and no table at all when there
    is no row. *)
Theorem spec_table_has_one_row_per_feature_in_order
        (data : json) (grps : list json) (tss : list (list row)) (s : state) :
  Py.get data "FeaturesGroups" (JArr []) = Ok (JArr grps) ->
  Forall2 group_triples grps tss ->
  spec_rows data = Ok (concat tss)
  /\ length (concat tss) = list_sum (map (@length row) tss)
  /\ spec_table data s
     = (Done tt,
        logged s (EvExpander "📑 Specification table" false
                    :: table_calls (concat tss)) 0)
  /\ (concat tss = [] ->
      spec_table data s
      = (Done tt, logged s [EvExpander "📑 Specification table" false] 0)).
Proof.
  intros Hd Hg.
  assert (Hr : spec_rows data = Ok (concat tss)).
  { unfold spec_rows. rewrite Hd. cbn [rbind Py.iter].
    now apply group_rows_ok. }
  assert (Ht : spec_table data s
               = (Done tt,
                  logged s (EvExpander "📑 Specification table" false
                              :: table_calls (concat tss)) 0)).
  { unfold spec_table. rewrite Hr. unfold logged, table_calls. mstep.
    destruct (concat tss); simpl; [reflexivity |].
    now rewrite <- app_assoc. }
  split; [exact Hr | split; [apply concat_length_rows | split; [exact Ht |]]].
  intros E. rewrite Ht, E. reflexivity.
Qed.

Lemma spec_table_has_one_row_per_feature_in_order_witness :
  spec_rows (JObj [("FeaturesGroups", JArr [Demo.dims; Demo.power])])
  = Ok [ (JStr "Dimensions", JStr "Width", JStr "5 cm");
         (JStr "Dimensions", JStr "Height", JStr "7 cm");
         (JStr "Power", JStr "Voltage", JStr "230 V") ].
Proof.
  refine (proj1 (spec_table_has_one_row_per_feature_in_order
                   (JObj [("FeaturesGroups", JArr [Demo.dims; Demo.power])])
                   [Demo.dims; Demo.power]
                   [ [ (JStr "Dimensions", JStr "Width", JStr "5 cm");
                       (JStr "Dimensions", JStr "Height", JStr "7 cm") ];
                     [ (JStr "Power", JStr "Voltage", JStr "230 V") ] ]
                   (init true) eq_refl _)).
  repeat constructor; eexists; (split; [reflexivity |]);
    repeat constructor.
Defined.

(* ------------------------------------------------------------------ *)
(** * Claims about the hero image and the PDF buttons                   *)
(* ------------------------------------------------------------------ *)

(** C8, as stated, fails: with [Pic500x500] present but empty and
    [HighPic] set, the image shown is the high-resolution one. *)
Lemma empty_500_variant_shows_HighPic :
  Py.lookup "Pic500x500" Demo.empty_500 = Some (JStr "")
  /\ hero_image (JObj Demo.empty_500) (init true)
     = (Done tt,
        logged (init true)
          [EvImage (JStr "http://h/hi.jpg") (Some "Main image") None] 0).
Proof.
  split; reflexivity.
Qed.

(** C8, amended. Hero image selection: for every payload, the hero image
    shown is the 500x500 variant when that field is present and not empty
    (truthy), otherwise the high-resolution variant when present and not
    empty, otherwise no hero image is rendered. *)
Theorem hero_is_first_nonempty_variant
        (img : list (string * json)) (s : state) :
  hero_image (JObj img) s
  = (Done tt, logged s (hero_calls (hero_choice img)) 0).
Proof.
  unfold hero_image, hero_choice, hero_calls, usable, logged, Py.get.
  destruct s as [l n f]. cbn [log requests do_fetch Nat.add].
  destruct (Py.lookup "Pic500x500" img) as [a |]; mstep.
  - destruct (Py.truthy a) eqn:Ta; mstep.
    + rewrite Ta. reflexivity.
    + destruct (Py.lookup "HighPic" img) as [b |]; mstep.
      * destruct (Py.truthy b) eqn:Tb; [reflexivity |].
        now rewrite app_nil_r.
      * cbn [Py.truthy]. now rewrite app_nil_r.
  - cbn [Py.truthy].
    destruct (Py.lookup "HighPic" img) as [b |]; mstep.
    + destruct (Py.truthy b) eqn:Tb; [reflexivity |].
      now rewrite app_nil_r.
    + cbn [Py.truthy]. now rewrite app_nil_r.
Qed.

Lemma select_flagged (keep : bool -> bool) (ms : list json) :
  Forall has_flag ms ->
  select keep ms = Ok (filter (flagged keep) ms).
Proof.
  induction 1 as [| m ms [v Hv] _ IH]; [reflexivity |].
  cbn [select filter]. unfold flagged at 1. rewrite Hv, IH. cbn [rbind].
  now destruct (keep (Py.truthy v)).
Qed.

Lemma pdf_label_choice (W : world) (p : list (string * json)) (u : string) :
  Py.lookup "URL" p = Some (JStr u) ->
  pdf_label W (JObj p)
  = Ok ("⬇ " ++ str W (label_choice p (Py.Path_name u))).
Proof.
  intros Hu. unfold pdf_label, label_choice, Py.get, Py.getitem.
  rewrite Hu.
  destruct (Py.lookup "Description" p) as [d |]; cbn [rbind].
  - destruct (Py.truthy d); reflexivity.
  - reflexivity.
Qed.

(** C2, as stated, fails twice.  An entry without [Description] gets the
    label ["⬇ PDF"] although its URL has the file name ["manual.pdf"]; and
    an entry without the [IsVideo] key makes line 135 raise. *)
Lemma absent_description_is_labelled_PDF :
  Py.lookup "Description" Demo.manual = None
  /\ Py.Path_name "http://h/docs/manual.pdf" = "manual.pdf"
  /\ pdf_label Demo.no_gtin (JObj Demo.manual) = Ok "⬇ PDF"
  /\ multimedia_section Demo.no_gtin (JArr [JObj Demo.no_flag]) (init true)
     = (Raised (KeyError "IsVideo"), init true).
Proof.
  repeat split; reflexivity.
Qed.

(** C2, amended. PDF button labels: every multimedia entry whose [IsVideo]
    key is present with a falsy value is one of the PDFs, and its download
    button is labelled ["⬇ "] followed by: the entry's [Description] when
    present and not empty; the literal ["PDF"] when the [Description] key
    is absent; the file name parsed from the entry's URL when the
    [Description] is present but empty. *)
Theorem pdf_button_label_is_description_or_PDF_or_filename
        (W : world) (ms : list json) (p : list (string * json))
        (v : json) (u : string) (r : response) (s : state) :
  Forall has_flag ms ->
  In (JObj p) ms ->
  Py.lookup "IsVideo" p = Some v ->
  Py.truthy v = false ->
  Py.lookup "URL" p = Some (JStr u) ->
  http_get W (requests s) u = Some r ->
  (exists pdfs, select negb ms = Ok pdfs /\ In (JObj p) pdfs)
  /\ pdf_button W (JObj p) s
     = (Done tt,
        logged s
          [ ReqGet u None;
            EvDownloadButton
              ("⬇ " ++ str W (label_choice p (Py.Path_name u)))
              (Raw (content r)) (Py.Path_name u) None None ] 1).
Proof.
  intros Hall Hin Hv Hf Hu Hr. split.
  - exists (filter (flagged negb) ms). split.
    + now apply select_flagged.
    + apply filter_In. split; [exact Hin |].
      unfold flagged, Py.getitem. now rewrite Hv, Hf.
  - unfold pdf_button. rewrite (pdf_label_choice W p u Hu).
    unfold Py.getitem. rewrite Hu. unfold requests_get, Path_name_of, logged.
    mstep. rewrite Hr. cbn [log requests do_fetch Nat.add].
    now rewrite <- app_assoc.
Qed.

Lemma pdf_button_label_is_description_or_PDF_or_filename_witness :
  pdf_button Demo.no_gtin (JObj Demo.manual) (init true)
  = (Done tt,
     logged (init true)
       [ ReqGet "http://h/docs/manual.pdf" None;
         EvDownloadButton "⬇ PDF" (Raw []) "manual.pdf" None None ] 1).
Proof.
  refine (proj2 (pdf_button_label_is_description_or_PDF_or_filename
                   Demo.no_gtin [JObj Demo.manual] Demo.manual
                   (JBool false) "http://h/docs/manual.pdf"
                   (mkResponse 200 [] None) (init true)
                   _ (or_introl eq_refl) eq_refl eq_refl eq_refl _)).
  - repeat constructor. eexists. reflexivity.
  - reflexivity.
Defined.

(* ------------------------------------------------------------------ *)
(** * The gallery loop                                                  *)
(* ------------------------------------------------------------------ *)










(* ------------------------------------------------------------------ *)
(** * What a whole pass can show of the gallery                         *)
(* ------------------------------------------------------------------ *)






Section Obeys.

Context {A B : Type}.













End Obeys.































(** The same sample, run: 22 pictures in the payload, 20 thumbnails, 20
    per-image downloads and an archive of 20 entries in the pass. *)
Example many_pics_pass :
  count is_thumbnail (log (snd (run Demo.many_pics_world false))) = 20
  /\ count is_full_download (log (snd (run Demo.many_pics_world false))) = 20
  /\ fst (run Demo.many_pics_world false) = Done tt.
Proof.
  vm_compute. repeat split.
Qed.

(* ------------------------------------------------------------------ *)
(** * The shape of a whole pass                                         *)
(* ------------------------------------------------------------------ *)

Lemma run_idle (W : world) :
  pressed W "Fetch" = false ->
  run W false
  = (Stopped, {| log := input_bar_log; requests := 0; do_fetch := false |}).
Proof.
  intros Hp. unfold run, script, bind.
  now rewrite (input_bar_idle W Hp).
Qed.

Lemma run_empty_gtin (W : world) (flag : bool) :
  submitted W flag ->
  gtin W = "" ->
  run W flag
  = (Stopped,
     {| log := input_bar_log ++ [EvWarning "Enter a GTIN first."];
        requests := 0;
        do_fetch := true |}).
Proof.
  intros Hs Hg. unfold run, script, bind.
  rewrite (input_bar_submitted W flag Hs).
  unfold gtin_guard. rewrite Hg. reflexivity.
Qed.

(** A pass is of one of four kinds: idle, stopped by the GTIN guard,
    stopped by the catalog client, or rendering. *)
Lemma pass_cases (W : world) (flag : bool) :
  (pressed W "Fetch" = false /\ flag = false
   /\ run W flag
      = (Stopped,
         {| log := input_bar_log; requests := 0; do_fetch := false |}))
  \/ (submitted W flag /\ gtin W = ""
      /\ run W flag
         = (Stopped,
            {| log := input_bar_log ++ [EvWarning "Enter a GTIN first."];
               requests := 0;
               do_fetch := true |}))
  \/ (submitted W flag /\ gtin W <> ""
      /\ exists e,
          conversion_cause (http_get W 0 (url W)) e
          /\ run W flag
             = (Stopped,
                logged (fetched W)
                  [EvError ("Icecat error → " ++ exc_text W e)] 0))
  \/ (submitted W flag /\ gtin W <> ""
      /\ exists data,
          successful W data
          /\ run W flag = render W data (fetched W)).
Proof.
  assert (H : submitted W flag \/ (pressed W "Fetch" = false /\ flag = false)).
  { unfold submitted. destruct (pressed W "Fetch"), flag; auto. }
  destruct H as [Hs | [Hp ->]].
  2: { left. repeat split; auto. now apply run_idle. }
  right.
  destruct (String.eqb_spec (gtin W) "") as [Hg | Hg].
  { left. repeat split; auto. now apply run_empty_gtin. }
  right.
  destruct (fetch_cases (http_get W 0 (url W)))
    as [[e C] | (r & env & data & E & G & D & N & K)].
  - left. repeat split; auto. exists e. split; [exact C |].
    now apply run_converts.
  - right. repeat split; auto. exists data.
    assert (Hok : successful W data).
    { exists env. split; [now exists r |]. split; [| exact K].
      unfold msg_of in N. destruct (Py.lookup "msg" env); congruence. }
    split; [exact Hok | now apply run_renders].
Qed.

Section Calm.

Context {A B : Type}.

Lemma calm_bind (m : M A) (f : A -> M B) :
  calm m -> (forall a, calm (f a)) -> calm (bind m f).
Proof.
  intros Hm Hf s. unfold bind.
  destruct (Hm s) as (e1 & L1 & P1 & F1 & N1).
  destruct (m s) as [[a | | e] s1]; cbn [fst snd] in *.
  - destruct (Hf a s1) as (e2 & L2 & P2 & F2 & N2).
    exists (e1 ++ e2)%list. rewrite L2, L1, app_assoc.
    split; [reflexivity | split; [| split; [congruence | exact N2]]].
    apply Forall_app. now split.
  - now contradiction N1.
  - exists e1. split; [exact L1 | split; [exact P1 | split; [exact F1 |]]].
    discriminate.
Qed.

Lemma calm_ret (a : A) : calm (ret a).
Proof.
  intros s. exists []. cbn. rewrite app_nil_r.
  repeat split; auto. discriminate.
Qed.

Lemma calm_lift (r : result A) : calm (lift r).
Proof.
  intros s. exists []. destruct r; cbn; rewrite app_nil_r;
    repeat split; auto; discriminate.
Qed.

Lemma calm_raise (e : pyexc) : calm (@raise A e).
Proof.
  intros s. exists []. cbn. rewrite app_nil_r.
  repeat split; auto. discriminate.
Qed.

End Calm.

Lemma calm_emit (e : event) : section_call e -> calm (emit e).
Proof.
  intros He s. exists [e]. cbn.
  split; [reflexivity | split; [now constructor | split; [reflexivity |]]].
  discriminate.
Qed.

Lemma calm_when (b : bool) (m : M unit) : calm m -> calm (when b m).
Proof.
  intros Hm. destruct b; [exact Hm | apply calm_ret].
Qed.

Lemma calm_requests_get (W : world) (u : json) :
  calm (requests_get W u None).
Proof.
  destruct u; try apply calm_raise.
  intros st. exists [ReqGet s None]. cbn.
  destruct (http_get W (requests st) s); cbn;
    (split; [reflexivity
            | split; [now repeat constructor | split; [reflexivity |]]]);
    discriminate.
Qed.

(** Close a goal [calm m] for straight-line section code. *)
Ltac calmly :=
  repeat first
    [ apply calm_bind; [| intros ?]
    | apply calm_ret
    | apply calm_lift
    | apply calm_raise
    | apply calm_requests_get
    | apply calm_when
    | apply calm_emit; exact I
    | match goal with
      | |- calm (if ?b then _ else _) => destruct b
      | |- calm (match ?x with _ => _ end) => destruct x
      end ].

Lemma calm_keyed_button (W : world) (label key : string) :
  calm (st_button W label (Some key)).
Proof.
  unfold st_button. calmly.
Qed.

Lemma calm_basic_info (info : json) : calm (basic_info info).
Proof.
  unfold basic_info. calmly.
Qed.

Lemma calm_spec_table (data : json) : calm (spec_table data).
Proof.
  unfold spec_table. calmly.
Qed.

Lemma calm_hero_image (image_data : json) : calm (hero_image image_data).
Proof.
  unfold hero_image. calmly.
Qed.

Lemma calm_gallery_loop (W : world) (pics : list json) :
  forall idx zf, calm (gallery_loop W idx pics zf).
Proof.
  induction pics as [| pic rest IH]; intros idx zf; cbn [gallery_loop].
  - apply calm_ret.
  - do 5 (apply calm_bind; [calmly | intros ?]).
    apply calm_bind; [apply calm_keyed_button | intros ?].
    do 4 (apply calm_bind; [calmly | intros ?]).
    apply IH.
Qed.

Lemma calm_gallery_section (W : world) (g : json) :
  calm (gallery_section W g).
Proof.
  unfold gallery_section. destruct (Py.truthy g); [| apply calm_ret].
  do 3 (apply calm_bind; [calmly | intros ?]).
  apply calm_bind; [apply calm_gallery_loop | intros ?]. calmly.
Qed.

Lemma calm_videos_loop (vs : list json) : calm (videos_loop vs).
Proof.
  induction vs as [| v vs IH]; cbn [videos_loop].
  - apply calm_ret.
  - do 2 (apply calm_bind; [calmly | intros ?]). exact IH.
Qed.

Lemma calm_pdfs_loop (W : world) (ps : list json) : calm (pdfs_loop W ps).
Proof.
  induction ps as [| p ps IH]; cbn [pdfs_loop].
  - apply calm_ret.
  - apply calm_bind; [| intros _; exact IH].
    unfold pdf_button. calmly.
Qed.

Lemma calm_multimedia (W : world) (media : json) :
  calm (multimedia_section W media).
Proof.
  unfold multimedia_section.
  do 4 (apply calm_bind; [calmly | intros ?]).
  apply calm_bind.
  - destruct a0; [apply calm_ret |].
    apply calm_bind; [calmly | intros ?]. apply calm_videos_loop.
  - intros _. destruct a2; [apply calm_ret |].
    apply calm_bind; [calmly | intros ?]. apply calm_pdfs_loop.
Qed.

Lemma calm_media_section (W : world) (image_data g media : json) :
  calm (media_section W image_data g media).
Proof.
  unfold media_section.
  apply calm_bind; [calmly | intros ?].
  apply calm_bind; [apply calm_hero_image | intros ?].
  apply calm_bind; [apply calm_gallery_section | intros ?].
  apply calm_multimedia.
Qed.

Lemma finishing_after_calm {A} (m : M A) (f : A -> M unit) :
  calm m -> (forall a, finishing (f a)) -> finishing (bind m f).
Proof.
  intros Hm Hf s. unfold bind.
  destruct (Hm s) as (e1 & L1 & P1 & F1 & N1).
  destruct (m s) as [[a | | e] s1]; cbn [fst snd] in *.
  - destruct (Hf a s1) as (e2 & P2 & F2 & [[D L2] | [X L2]]).
    + exists (e1 ++ e2)%list.
      split; [apply Forall_app; now split | split; [congruence |]].
      left. split; [exact D |]. now rewrite L2, L1, !app_assoc.
    + exists (e1 ++ e2)%list.
      split; [apply Forall_app; now split | split; [congruence |]].
      right. split; [exact X |]. now rewrite L2, L1, !app_assoc.
  - now contradiction N1.
  - exists e1. split; [exact P1 | split; [exact F1 |]].
    right. split; [now exists e | exact L1].
Qed.

Lemma finishing_footer : finishing (emit footer).
Proof.
  intros s. exists []. split; [constructor | split; [reflexivity |]].
  left. split; reflexivity.
Qed.

(** Everything after the fetch: section calls only, the flag untouched, no
    [st.stop()], and the footer exactly when the pass returns. *)
Lemma render_finishing (W : world) (data : json) : finishing (render W data).
Proof.
  unfold render.
  do 4 (apply finishing_after_calm; [apply calm_lift | intros ?]).
  apply finishing_after_calm; [apply calm_basic_info | intros ?].
  apply finishing_after_calm; [apply calm_spec_table | intros ?].
  apply finishing_after_calm; [apply calm_media_section | intros ?].
  apply finishing_footer.
Qed.

Lemma filter_section_calls (f : event -> bool) (evs : list event) :
  (forall e, section_call e -> f e = false) ->
  Forall section_call evs ->
  filter f evs = [].
Proof.
  intros Hf. induction 1 as [| e evs He _ IH]; [reflexivity |].
  cbn [filter]. now rewrite (Hf e He).
Qed.

Lemma section_call_untimed (e : event) :
  section_call e -> is_timed_request e = false.
Proof.
  destruct e; cbn; try reflexivity; try contradiction.
  now destruct timeout.
Qed.

Lemma section_call_no_message (e : event) :
  section_call e -> is_message e = false.
Proof.
  destruct e; cbn; try reflexivity; contradiction.
Qed.

Lemma section_call_not_footer (evs : list event) :
  Forall section_call evs -> ~ In footer evs.
Proof.
  intros H Hin. rewrite Forall_forall in H. exact (H footer Hin).
Qed.

Lemma submitted_orb (W : world) (flag : bool) :
  submitted W flag -> flag || pressed W "Fetch" = true.
Proof.
  intros [Hp | ->]; [rewrite Hp; apply orb_true_r | reflexivity].
Qed.

(* ------------------------------------------------------------------ *)
(** * Further properties of a whole pass                                *)
(* ------------------------------------------------------------------ *)

(** X1. The session flag is set by the Fetch button and never cleared:
    after every pass it is the old flag or-ed with the button.  While it
    is unset the pass shows the input bar only, issues no request and
    stops. *)
Theorem session_flag_is_sticky (W : world) (flag : bool) :
  do_fetch (snd (run W flag)) = flag || pressed W "Fetch"
  /\ (flag || pressed W "Fetch" = false ->
      run W flag
      = (Stopped,
         {| log := input_bar_log; requests := 0; do_fetch := false |})).
Proof.
  destruct (pass_cases W flag)
    as [(Hp & -> & R) | [(Hs & Hg & R) | [(Hs & Hg & e & C & R)
       | (Hs & Hg & data & Hok & R)]]].
  - rewrite R, Hp. split; [reflexivity | now intros _].
  - rewrite R, (submitted_orb W flag Hs). split; [reflexivity | discriminate].
  - rewrite R, (submitted_orb W flag Hs). split; [reflexivity | discriminate].
  - rewrite R, (submitted_orb W flag Hs). split; [| discriminate].
    destruct (render_finishing W data (fetched W)) as (evs & _ & F & _).
    exact F.
Qed.

(** X2. The catalog request is the only request of a pass that carries a
    timeout, and there is at most one: every asset fetch (gallery images,
    PDFs) is issued without a timeout. *)
Theorem only_the_catalog_request_has_a_timeout (W : world) (flag : bool) :
  filter is_timed_request (log (snd (run W flag))) = []
  \/ (filter is_timed_request (log (snd (run W flag)))
      = [ReqGet (url W) (Some TIMEOUT)]
      /\ TIMEOUT = 20%Z
      /\ url W
         = "https://live.icecat.biz/api?UserName=openIcecat-live&Language="
             ++ Py.upper (LANGUAGES (lang W)) ++ "&GTIN=" ++ gtin W).
Proof.
  destruct (pass_cases W flag)
    as [(Hp & -> & R) | [(Hs & Hg & R) | [(Hs & Hg & e & C & R)
       | (Hs & Hg & data & Hok & R)]]]; rewrite R.
  - left. reflexivity.
  - left. reflexivity.
  - right. repeat split; reflexivity.
  - right. split; [| split; reflexivity].
    destruct (render_finishing W data (fetched W))
      as (evs & P & _ & [[_ L] | [_ L]]); rewrite L;
      rewrite !filter_app,
        (filter_section_calls _ evs section_call_untimed P);
      reflexivity.
Qed.

(** X3. The footer is shown exactly by the passes that run to their end:
    a pass that stops or raises never shows it, and a pass that returns
    shows it as its last call. *)
Theorem footer_marks_a_completed_pass (W : world) (flag : bool) :
  (In footer (log (snd (run W flag))) <-> fst (run W flag) = Done tt)
  /\ (fst (run W flag) = Done tt ->
      exists evs, log (snd (run W flag)) = (evs ++ [footer])%list).
Proof.
  destruct (pass_cases W flag)
    as [(Hp & -> & R) | [(Hs & Hg & R) | [(Hs & Hg & e & C & R)
       | (Hs & Hg & data & Hok & R)]]]; rewrite R.
  1-3: (split; [split |]; cbn; intros H; try discriminate H;
        repeat (destruct H as [H | H]; [discriminate H |]); contradiction).
  destruct (render_finishing W data (fetched W))
    as (evs & P & _ & [[D L] | [[e X] L]]); rewrite L.
  - split; [split; [intros _; exact D |] |].
    + intros _. rewrite app_assoc. apply in_or_app. right. now left.
    + intros _. exists (log (fetched W) ++ evs)%list. now rewrite app_assoc.
  - split; [split |]; intros H; [| rewrite X in H; discriminate..].
    exfalso. apply in_app_or in H. destruct H as [H | H].
    + cbn in H.
      repeat (destruct H as [H | H]; [discriminate H |]). contradiction.
    + exact (section_call_not_footer evs P H).
Qed.

(** X4. Inline messages and [st.stop()] belong to the input and fetch
    stage only.  A pass shows at most one message (the GTIN warning or the
    catalog error); when it shows one, that is its last call and the pass
    stops.  A pass that stops has not opened any section, and rendering
    itself never stops and never shows a message. *)
Theorem a_message_ends_the_pass (W : world) (flag : bool) :
  (fst (run W flag) = Stopped ->
   filter is_section_start (log (snd (run W flag))) = [])
  /\ (filter is_message (log (snd (run W flag))) = []
      \/ exists pre m,
          log (snd (run W flag)) = (pre ++ [m])%list
          /\ filter is_message (log (snd (run W flag))) = [m]
          /\ fst (run W flag) = Stopped).
Proof.
  destruct (pass_cases W flag)
    as [(Hp & -> & R) | [(Hs & Hg & R) | [(Hs & Hg & e & C & R)
       | (Hs & Hg & data & Hok & R)]]]; rewrite R.
  - split; [reflexivity | left; reflexivity].
  - split; [reflexivity | right].
    exists input_bar_log, (EvWarning "Enter a GTIN first.").
    repeat split.
  - split; [reflexivity | right].
    exists (log (fetched W)), (EvError ("Icecat error → " ++ exc_text W e)).
    repeat split.
  - destruct (render_finishing W data (fetched W))
      as (evs & P & _ & [[D L] | [[e X] L]]); rewrite L.
    + split; [rewrite D; discriminate | left].
      rewrite !filter_app,
        (filter_section_calls _ evs section_call_no_message P).
      reflexivity.
    + split; [rewrite X; discriminate | left].
      rewrite !filter_app,
        (filter_section_calls _ evs section_call_no_message P).
      reflexivity.
Qed.

(** X5. A successful envelope whose [data] is not an object (for instance
    [null]) is not handled: line 59 raises an uncaught [TypeError] right
    after the request; nothing is rendered and no inline error is shown. *)
Theorem data_that_is_not_an_object_is_uncaught
        (W : world) (flag : bool) (data : json) :
  submitted W flag ->
  gtin W <> "" ->
  successful W data ->
  (forall d, data <> JObj d) ->
  run W flag = (Raised TypeError, fetched W).
Proof.
  intros Hs Hg Hok Hn.
  rewrite (run_renders W flag data Hs Hg Hok).
  unfold render. destruct data; try reflexivity.
  now contradiction (Hn fields).
Qed.

Lemma data_that_is_not_an_object_is_uncaught_witness :
  successful Demo.null_data JNull
  /\ run Demo.null_data false = (Raised TypeError, fetched Demo.null_data).
Proof.
  assert (Hok : successful Demo.null_data JNull).
  { exists [("msg", JStr "OK"); ("data", JNull)].
    split; [| split; reflexivity].
    eexists. repeat split. left. reflexivity. }
  split; [exact Hok |].
  apply (data_that_is_not_an_object_is_uncaught Demo.null_data false JNull).
  - left. reflexivity.
  - discriminate.
  - exact Hok.
  - discriminate.
Defined.

(** X6. A [Gallery] field that is present but is neither a list nor a
    string (for instance [null]) makes line 61 raise an uncaught
    [TypeError] before the first section: even with complete product
    information, nothing is rendered. *)
Theorem unsliceable_gallery_aborts_before_any_section
        (W : world) (flag : bool) (d : list (string * json)) (info g : json) :
  submitted W flag ->
  gtin W <> "" ->
  successful W (JObj d) ->
  Py.lookup "GeneralInfo" d = Some info ->
  Py.lookup "Gallery" d = Some g ->
  (forall l, g <> JArr l) ->
  (forall t, g <> JStr t) ->
  run W flag = (Raised TypeError, fetched W)
  /\ filter is_section_start (log (fetched W)) = [].
Proof.
  intros Hs Hg Hok Hi Hgal Hl Ht.
  split; [| reflexivity].
  rewrite (run_renders W flag (JObj d) Hs Hg Hok).
  apply render_unsliceable_gallery with (info := info); [exact Hi |].
  unfold extract_gallery, Py.get. rewrite Hgal. cbn [rbind].
  destruct g; try reflexivity.
  - now contradiction (Ht s).
  - now contradiction (Hl items).
Qed.

Lemma unsliceable_gallery_aborts_before_any_section_witness :
  successful Demo.null_gallery_world (JObj Demo.null_gallery)
  /\ run Demo.null_gallery_world false
     = (Raised TypeError, fetched Demo.null_gallery_world).
Proof.
  assert (Hok : successful Demo.null_gallery_world (JObj Demo.null_gallery)).
  { exists [("msg", JStr "OK"); ("data", JObj Demo.null_gallery)].
    split; [| split; reflexivity].
    eexists. repeat split. left. reflexivity. }
  split; [exact Hok |].
  refine (proj1 (unsliceable_gallery_aborts_before_any_section
                   Demo.null_gallery_world false Demo.null_gallery
                   (JObj Demo.info_empty_long) JNull
                   _ _ Hok eq_refl eq_refl _ _)).
  - left. reflexivity.
  - discriminate.
  - discriminate.
  - discriminate.
Defined.

(** X7. The HTTP status is checked before the body is read: a response
    with a status from 400 to 599 ends the pass with the inline error,
    whatever its body says, even a well-formed envelope with
    [msg == "OK"]. *)
Theorem error_status_wins_over_the_body
        (W : world) (flag : bool) (r : response) :
  submitted W flag ->
  gtin W <> "" ->
  http_get W 0 (url W) = Some r ->
  (400 <= status_code r < 600)%Z ->
  run W flag
  = (Stopped,
     {| log := input_bar_log
               ++ [ReqGet (url W) (Some TIMEOUT);
                   EvError ("Icecat error → "
                            ++ lib_text W (HTTPError (status_code r)))];
        requests := 1;
        do_fetch := true |}).
Proof.
  intros Hs Hg E B.
  rewrite (run_converts W flag (HTTPError (status_code r)) Hs Hg).
  - reflexivity.
  - apply (error_status _ r); [exact E |]. unfold status_ok. lia.
Qed.

Lemma error_status_wins_over_the_body_witness :
  body_json (mkResponse 404 []
               (Some (JObj [("msg", JStr "OK");
                            ("data", JObj Demo.null_gallery)])))
  <> None
  /\ run Demo.not_found false
     = (Stopped,
        {| log := input_bar_log
                  ++ [ReqGet (url Demo.not_found) (Some TIMEOUT);
                      EvError "Icecat error → "];
           requests := 1;
           do_fetch := true |}).
Proof.
  split; [discriminate |].
  refine (error_status_wins_over_the_body Demo.not_found false _ _ _
            eq_refl _).
  - left. reflexivity.
  - discriminate.
  - cbn. lia.
Defined.

(** X8. A [SummaryDescription] that is present but not an object (for
    instance [null]) aborts the basic-info section with an uncaught
    [AttributeError] after the name, vendor code and brand fields have
    been shown; the description area is never reached. *)
Theorem summary_that_is_not_an_object_aborts_basic_info
        (info : list (string * json)) (n b j : json) (s : state) :
  Py.lookup "ProductName" info = Some n ->
  Py.lookup "Brand" info = Some b ->
  Py.lookup "SummaryDescription" info = Some j ->
  (forall desc, j <> JObj desc) ->
  basic_info (JObj info) s
  = (Raised AttributeError,
     logged s [ basic_info_expander;
                EvTextInput "Product name" n true;
                EvTextInput "Vendor article no." (vendor_code info) true;
                EvTextInput "Brand" b true ] 0).
Proof.
  intros Hn Hb Hj Hno.
  assert (Hsum : short_or_long_summary (JObj info) = Err AttributeError).
  { unfold short_or_long_summary, Py.get at 1. rewrite Hj. cbn [rbind].
    destruct j; try reflexivity. now contradiction (Hno fields). }
  unfold basic_info, vendor_code, logged.
  unfold Py.getitem, Py.get at 1. rewrite Hn, Hb, Hsum. mstep.
  destruct (Py.lookup "BrandPartCode" info); simpl;
    repeat rewrite <- app_assoc; reflexivity.
Qed.

Lemma summary_that_is_not_an_object_aborts_basic_info_witness :
  basic_info (JObj Demo.info_null_summary) (init true)
  = (Raised AttributeError,
     logged (init true)
       [ basic_info_expander;
         EvTextInput "Product name" (JStr "Widget X") true;
         EvTextInput "Vendor article no." (JStr "") true;
         EvTextInput "Brand" (JStr "Acme") true ] 0).
Proof.
  refine (summary_that_is_not_an_object_aborts_basic_info
            Demo.info_null_summary (JStr "Widget X") (JStr "Acme") JNull
            (init true) eq_refl eq_refl eq_refl _).
  discriminate.
Defined.

(* ------------------------------------------------------------------ *)
(** * Further properties of the specification table                     *)
(* ------------------------------------------------------------------ *)

(** X9. The table is 35 px plus 26 px per row high, capped at 500 px: it
    is between 61 and 500 px, grows linearly up to 17 rows and stays at
    500 px from 18 rows on. *)
Theorem table_height_is_linear_then_capped
        (data : json) (rows : list row) (s : state) :
  spec_rows data = Ok rows ->
  rows <> [] ->
  exists h,
    spec_table data s
    = (Done tt,
       logged s [ EvExpander "📑 Specification table" false;
                  EvDataframe rows h ] 0)
    /\ (61 <= h <= 500)%Z
    /\ (length rows <= 17 -> h = (35 + 26 * Z.of_nat (length rows))%Z)
    /\ (18 <= length rows -> h = 500%Z).
Proof.
  intros Hr Hne.
  exists (Z.min 500 (35 + 26 * Z.of_nat (length rows))).
  split; [| split; [| split]].
  - unfold spec_table, logged. rewrite Hr. mstep.
    destruct rows as [| r rows]; [contradiction |].
    cbn [log requests do_fetch Nat.add]. now rewrite <- app_assoc.
  - destruct rows as [| r rows]; [contradiction |].
    cbn [length]. lia.
  - lia.
  - lia.
Qed.

Lemma table_height_is_linear_then_capped_witness :
  exists h,
    spec_table (JObj [("FeaturesGroups", JArr [Demo.dims; Demo.power])])
               (init true)
    = (Done tt,
       logged (init true)
         [ EvExpander "📑 Specification table" false;
           EvDataframe
             [ (JStr "Dimensions", JStr "Width", JStr "5 cm");
               (JStr "Dimensions", JStr "Height", JStr "7 cm");
               (JStr "Power", JStr "Voltage", JStr "230 V") ] h ] 0)
    /\ (61 <= h <= 500)%Z.
Proof.
  destruct (table_height_is_linear_then_capped
              (JObj [("FeaturesGroups", JArr [Demo.dims; Demo.power])])
              [ (JStr "Dimensions", JStr "Width", JStr "5 cm");
                (JStr "Dimensions", JStr "Height", JStr "7 cm");
                (JStr "Power", JStr "Voltage", JStr "230 V") ]
              (init true) eq_refl)
    as (h & Ht & Hb & _).
  - discriminate.
  - exists h. split; [exact Ht | exact Hb].
Defined.

(** X10. The name of a group is read once per feature, never for the group
    itself: a group without the [FeatureGroup] key is skipped silently
    when its feature list is empty, and makes the comprehension raise
    [KeyError "FeatureGroup"] as soon as it has one feature. *)
Theorem group_name_is_needed_only_with_features
        (g : list (string * json)) (feats rest : list json) :
  Py.lookup "FeatureGroup" g = None ->
  Py.lookup "Features" g = Some (JArr feats) ->
  (feats = [] -> group_rows (JObj g :: rest) = group_rows rest)
  /\ (feats <> [] ->
      group_rows (JObj g :: rest) = Err (KeyError "FeatureGroup")).
Proof.
  intros Hn Hf. split.
  - intros ->. cbn [group_rows]. unfold Py.getitem. rewrite Hf.
    cbn [rbind Py.iter feature_rows].
    destruct (group_rows rest); reflexivity.
  - intros Hne. destruct feats as [| feat feats]; [contradiction |].
    cbn [group_rows]. unfold Py.getitem at 1. rewrite Hf.
    cbn [rbind Py.iter feature_rows Py.path].
    unfold Py.getitem at 1. rewrite Hn. reflexivity.
Qed.

Lemma group_name_is_needed_only_with_features_witness :
  group_rows [JObj Demo.nameless_empty; Demo.power]
  = group_rows [Demo.power].
Proof.
  exact (proj1 (group_name_is_needed_only_with_features
                  Demo.nameless_empty [] [Demo.power] eq_refl eq_refl)
               eq_refl).
Defined.

Lemma group_rows_after (good : list json) (tss : list (list row))
      (tail : list json) :
  Forall2 group_triples good tss ->
  group_rows (good ++ tail)
  = rbind (group_rows tail) (fun others => Ok (concat tss ++ others)%list).
Proof.
  induction 1 as [| grp ts good tss (feats & Hf & Hts) _ IH].
  - cbn. destruct (group_rows tail); reflexivity.
  - cbn [app group_rows]. rewrite Hf. cbn [rbind Py.iter].
    rewrite (feature_rows_ok grp feats ts Hts), IH. cbn [rbind concat].
    destruct (group_rows tail); cbn [rbind]; [| reflexivity].
    now rewrite app_assoc.
Qed.

Lemma group_rows_bad_first (bad : json) (rest : list json) (e : pyexc) :
  group_rows [bad] = Err e ->
  group_rows (bad :: rest) = Err e.
Proof.
  cbn [group_rows].
  destruct (Py.getitem bad "Features") as [fs |]; cbn [rbind]; [| easy].
  destruct (Py.iter fs) as [feats |]; cbn [rbind]; [| easy].
  destruct (feature_rows bad feats); cbn [rbind]; easy.
Qed.

(** X11. The table is all or nothing: when one group cannot be tabulated
    (a missing key in the group or in any of its features), the section
    raises that group's exception and shows no table, however many
    well-formed groups come before or after it. *)
Theorem one_bad_group_leaves_no_table
        (data : json) (good : list json) (tss : list (list row))
        (bad : json) (rest : list json) (e : pyexc) (s : state) :
  Py.get data "FeaturesGroups" (JArr []) = Ok (JArr (good ++ bad :: rest)) ->
  Forall2 group_triples good tss ->
  group_rows [bad] = Err e ->
  spec_table data s
  = (Raised e, logged s [EvExpander "📑 Specification table" false] 0).
Proof.
  intros Hd Hgood Hbad.
  assert (Hr : spec_rows data = Err e).
  { unfold spec_rows. rewrite Hd. cbn [rbind Py.iter].
    rewrite (group_rows_after good tss (bad :: rest) Hgood).
    now rewrite (group_rows_bad_first bad rest e Hbad). }
  unfold spec_table. rewrite Hr. reflexivity.
Qed.

Lemma one_bad_group_leaves_no_table_witness :
  group_rows [Demo.broken] = Err (KeyError "PresentationValue")
  /\ spec_table
       (JObj [("FeaturesGroups", JArr [Demo.dims; Demo.broken; Demo.power])])
       (init true)
     = (Raised (KeyError "PresentationValue"),
        logged (init true) [EvExpander "📑 Specification table" false] 0).
Proof.
  split; [reflexivity |].
  refine (one_bad_group_leaves_no_table
            (JObj [("FeaturesGroups",
                    JArr [Demo.dims; Demo.broken; Demo.power])])
            [Demo.dims]
            [ [ (JStr "Dimensions", JStr "Width", JStr "5 cm");
                (JStr "Dimensions", JStr "Height", JStr "7 cm") ] ]
            Demo.broken [Demo.power] (KeyError "PresentationValue")
            (init true) eq_refl _ eq_refl).
  repeat constructor; eexists; (split; [reflexivity |]);
    repeat constructor.
Defined.

(* ------------------------------------------------------------------ *)
(** * Further properties of the media section                           *)
(* ------------------------------------------------------------------ *)
















Lemma flagged_complement (m : json) :
  has_flag m -> flagged negb m = negb (flagged (fun b => b) m).
Proof.
  intros [v Hv]. unfold flagged. now rewrite Hv.
Qed.

(** X15. The two comprehensions of lines 135-136 split the multimedia
    list: when every entry has the [IsVideo] key, each entry lands in
    exactly one of [videos] and [pdfs], both lists keep the payload order,
    and their lengths add up to the length of the list. *)
Theorem media_is_split_into_videos_and_pdfs (ms : list json) :
  Forall has_flag ms ->
  select (fun b => b) ms = Ok (filter (flagged (fun b => b)) ms)
  /\ select negb ms = Ok (filter (flagged negb) ms)
  /\ length (filter (flagged (fun b => b)) ms)
     + length (filter (flagged negb) ms) = length ms
  /\ (forall m, In m ms ->
        (In m (filter (flagged (fun b => b)) ms)
         <-> ~ In m (filter (flagged negb) ms))).
Proof.
  intros Hall. split; [now apply select_flagged |].
  split; [now apply select_flagged |]. split.
  - induction Hall as [| m ms Hm _ IH]; [reflexivity |].
    cbn [filter]. rewrite (flagged_complement m Hm).
    destruct (flagged (fun b => b) m); cbn [negb length]; lia.
  - intros m Hin. rewrite Forall_forall in Hall.
    rewrite !filter_In, (flagged_complement m (Hall m Hin)).
    destruct (flagged (fun b => b) m); cbn [negb]; split.
    + intros _ [_ H]. discriminate.
    + tauto.
    + intros [_ H]. discriminate.
    + intros H. exfalso. apply H. tauto.
Qed.

Lemma media_is_split_into_videos_and_pdfs_witness :
  select (fun b => b) Demo.mixed_media = Ok [Demo.clip]
  /\ select negb Demo.mixed_media = Ok [JObj Demo.manual; Demo.leaflet].
Proof.
  assert (H : Forall has_flag Demo.mixed_media)
    by (repeat constructor; eexists; reflexivity).
  destruct (media_is_split_into_videos_and_pdfs Demo.mixed_media H)
    as (Hv & Hp & _).
  split; [exact Hv | exact Hp].
Defined.

Lemma select_after (keep : bool -> bool) (good : list json) (bad : json)
      (rest : list json) (e : pyexc) :
  Forall has_flag good ->
  Py.getitem bad "IsVideo" = Err e ->
  select keep (good ++ bad :: rest) = Err e.
Proof.
  intros Hgood Hbad. induction Hgood as [| m good [v Hv] _ IH].
  - cbn [app select]. now rewrite Hbad.
  - cbn [app select]. rewrite Hv, IH. reflexivity.
Qed.

(** X16. One multimedia entry without the [IsVideo] key (or that is not an
    object) takes the whole list down: line 135 raises on it before
    anything of the list is shown, so neither the videos nor the PDFs of
    the well-formed entries around it appear. *)
Theorem one_unflagged_entry_hides_all_media
        (W : world) (good : list json) (bad : json) (rest : list json)
        (e : pyexc) (s : state) :
  Forall has_flag good ->
  Py.getitem bad "IsVideo" = Err e ->
  multimedia_section W (JArr (good ++ bad :: rest)) s = (Raised e, s).
Proof.
  intros Hgood Hbad. unfold multimedia_section. cbn [Py.iter]. mstep.
  now rewrite (select_after _ good bad rest e Hgood Hbad).
Qed.

Lemma one_unflagged_entry_hides_all_media_witness :
  multimedia_section Demo.no_gtin
    (JArr [Demo.clip; JObj Demo.no_flag; Demo.leaflet]) (init true)
  = (Raised (KeyError "IsVideo"), init true).
Proof.
  refine (one_unflagged_entry_hides_all_media Demo.no_gtin
            [Demo.clip] (JObj Demo.no_flag) [Demo.leaflet]
            (KeyError "IsVideo") (init true) _ eq_refl).
  repeat constructor. eexists. reflexivity.
Defined.











